(** * Intelligent inventory engine: demand forecast, stock optimisation and
    anomaly detection of [src/services/aiService.ts]

    A shallow embedding of the [AIService] class.

    - A JavaScript [number] is an IEEE-754 binary64 value: Rocq's primitive
      [float].  Division by zero, [NaN], signed zeros and rounding are the
      ones of the source.  An integer-valued number (a Prisma [Int], an array
      length, a loop counter) enters float arithmetic through [Z2F].
    - A [Date] is its time value, milliseconds since the epoch, in [Z].  The
      host time zone is a parameter ([Zone]): [setDate]/[getDate]/[getDay]
      work on local wall-clock fields and [toISOString] prints UTC, as in
      ECMA-262.  The text [YYYY-MM-DD] of a UTC day is kept as the number of
      that day.
    - [prisma], the cache and the per-category model map are the fields of a
      [World] that is passed explicitly; a rejected promise is an [Err].
    - TensorFlow is an interface ([TensorFlow]): training and prediction are
      arbitrary functions.  [simple-statistics] and [ml-regression] are
      transcribed from the published algorithms of those packages. *)

From Stdlib Require Import ZArith List Floats Lia Bool String.
From stdpp Require Import base option list gmap strings pretty.
Import ListNotations.

Set Warnings "-inexact-float".
Local Open Scope Z_scope.

(* ===================================================================== *)
(** * JavaScript numbers *)
(* ===================================================================== *)

(** The binary64 value nearest to an integer. *)
Definition Z2F (z : Z) : float :=
  SF2Prim (binary_normalize prec emax z 0 false).

Definition N2F (n : nat) : float := Z2F (Z.of_nat n).

Definition isNegZero (x : float) : bool :=
  PrimFloat.is_zero x && PrimFloat.get_sign x.

(** [Math.max(a, b)]: [NaN] if either is, and [+0] above [-0]. *)
Definition Math_max (a b : float) : float :=
  if PrimFloat.is_nan a || PrimFloat.is_nan b then nan
  else if (a <? b)%float then b
  else if (b <? a)%float then a
  else if isNegZero a then b else a.

(** [Math.min(a, b)]. *)
Definition Math_min (a b : float) : float :=
  if PrimFloat.is_nan a || PrimFloat.is_nan b then nan
  else if (a <? b)%float then a
  else if (b <? a)%float then b
  else if isNegZero a then a else b.

Definition two52 : float := 4503599627370496%float.

(** Integer part of [a] for [0 <= a < 2^52]: adding and removing [2^52]
    rounds to the nearest integer, which is then stepped down if above. *)
Definition floorAbs (a : float) : float :=
  let r := ((a + two52) - two52)%float in
  if (a <? r)%float then (r - 1)%float else r.

(** [Math.round(x)]: nearest integer, ties towards [+Infinity]; [NaN],
    infinities and zeros are returned unchanged and a negative argument
    that rounds to zero gives [-0]. *)
Definition Math_round (x : float) : float :=
  if PrimFloat.is_nan x then x
  else
    let a := PrimFloat.abs x in
    if (two52 <=? a)%float then x
    else if PrimFloat.is_zero x then x
    else
      let f := floorAbs a in
      let frac := (a - f)%float in
      if PrimFloat.get_sign x
      then (- (if (0.5 <? frac)%float then f + 1 else f))%float
      else if (0.5 <=? frac)%float then (f + 1)%float else f.

(** [v || 0] for an optional number: [undefined], [0], [-0] and [NaN] are
    falsy. *)
Definition orZero (o : option float) : float :=
  match o with
  | Some v => if PrimFloat.is_zero v || PrimFloat.is_nan v then 0%float else v
  | None => 0%float
  end.

(* ===================================================================== *)
(** * Errors *)
(* ===================================================================== *)

(** What an operation throws.  [ProductNotFound] is
    [new Error('Product not found')], [ModelNotFound] is
    [new Error('Model not found for category')], [ReferenceError] is the
    engine's error for an identifier that is not in scope, [StatsError]
    is an error thrown by simple-statistics and [SyntaxError] is the error
    of [JSON.parse]. *)
Inductive error : Type :=
| ProductNotFound
| ModelNotFound
| ReferenceError (name : string)
| StatsError (msg : string)
| SyntaxError (msg : string).

Inductive result (A : Type) : Type :=
| Ok (a : A)
| Err (e : error).
Arguments Ok {A} a.
Arguments Err {A} e.

Definition rbind {A B} (r : result A) (k : A -> result B) : result B :=
  match r with
  | Ok a => k a
  | Err e => Err e
  end.

Notation "'do' x <- r ; k" := (rbind r (fun x => k))
  (at level 10, x name, r at level 100, k at level 200).

Fixpoint mapM {A B} (f : A -> result B) (l : list A) : result (list B) :=
  match l with
  | [] => Ok []
  | a :: rest => do b <- f a; do bs <- mapM f rest; Ok (b :: bs)
  end.

Definition isOk {A} (r : result A) : bool :=
  match r with Ok _ => true | Err _ => false end.

(* ===================================================================== *)
(** * Dates *)
(* ===================================================================== *)

Definition msPerDay : Z := 86400000.

(** The host time zone: the offset of local time from UTC, in
    milliseconds, at a UTC time value and at a local time value. *)
Record Zone : Type := {
  offsetAtUTC : Z -> Z;
  offsetAtLocal : Z -> Z
}.

Definition fixedZone (offset : Z) : Zone :=
  {| offsetAtUTC := fun _ => offset; offsetAtLocal := fun _ => offset |}.

Definition Day (t : Z) : Z := t / msPerDay.
Definition TimeWithinDay (t : Z) : Z := t mod msPerDay.
Definition LocalTime (zone : Zone) (t : Z) : Z := t + offsetAtUTC zone t.
Definition UTC (zone : Zone) (tl : Z) : Z := tl - offsetAtLocal zone tl.

(** [d.setDate(d.getDate() + delta)]: the local day moves by [delta] and
    the local time of day is kept. *)
Definition addLocalDays (zone : Zone) (t delta : Z) : Z :=
  let tl := LocalTime zone t in
  UTC zone ((Day tl + delta) * msPerDay + TimeWithinDay tl).

(** [d.toISOString().split('T')[0]]: the UTC calendar day. *)
Definition isoDate (t : Z) : Z := Day t.

(** [new Date('YYYY-MM-DD')]: midnight UTC of that day. *)
Definition parseISODate (d : Z) : Z := d * msPerDay.

(** Day of the week of a day number; day [0] (1970-01-01) is a Thursday. *)
Definition WeekDay (day : Z) : Z := (day + 4) mod 7.

(** Year, month (1..12) and day of month of a day number. *)
Definition civilFromDays (day : Z) : Z * Z * Z :=
  let z := day + 719468 in
  let era := z / 146097 in
  let doe := z - era * 146097 in
  let yoe := (doe - doe / 1460 + doe / 36524 - doe / 146096) / 365 in
  let doy := doe - (365 * yoe + yoe / 4 - yoe / 100) in
  let mp := (5 * doy + 2) / 153 in
  let d := doy - (153 * mp + 2) / 5 + 1 in
  let m := if mp <? 10 then mp + 3 else mp - 9 in
  let y := yoe + era * 400 + (if m <=? 2 then 1 else 0) in
  (y, m, d).

Definition getDay (zone : Zone) (t : Z) : Z := WeekDay (Day (LocalTime zone t)).
Definition getDate (zone : Zone) (t : Z) : Z :=
  snd (civilFromDays (Day (LocalTime zone t))).
Definition getMonth (zone : Zone) (t : Z) : Z :=
  snd (fst (civilFromDays (Day (LocalTime zone t)))) - 1.

(* ===================================================================== *)
(** * simple-statistics and ml-regression *)
(* ===================================================================== *)

(** [ss.sum]: Kahan-Babuska summation, after the first element. *)
Fixpoint sumLoop (xs : list float) (sum correction : float) : float :=
  match xs with
  | [] => (sum + correction)%float
  | x :: rest =>
      let transition := (sum + x)%float in
      let correction' :=
        if (PrimFloat.abs x <=? PrimFloat.abs sum)%float
        then (correction + (sum - transition + x))%float
        else (correction + (x - transition + sum))%float in
      sumLoop rest transition correction'
  end.

Definition ss_sum (xs : list float) : float :=
  match xs with
  | [] => 0%float
  | x :: rest => sumLoop rest x 0%float
  end.

(** [ss.mean]: throws on an empty array. *)
Definition ss_mean (xs : list float) : result float :=
  match xs with
  | [] => Err (StatsError "mean requires at least one data point")
  | _ => Ok (ss_sum xs / N2F (length xs))%float
  end.

(** [sumNthPowerDeviations(x, 2)]. *)
Definition sumSquaredDeviations (xs : list float) : result float :=
  do meanValue <- ss_mean xs;
  Ok (fold_left (fun sum x =>
                   let tempValue := (x - meanValue)%float in
                   (sum + tempValue * tempValue)%float) xs 0%float).

(** [ss.variance]: the population variance. *)
Definition ss_variance (xs : list float) : result float :=
  match xs with
  | [] => Err (StatsError "variance requires at least one data point")
  | _ => do s <- sumSquaredDeviations xs; Ok (s / N2F (length xs))%float
  end.

(** [ss.standardDeviation]. *)
Definition ss_standardDeviation (xs : list float) : result float :=
  match xs with
  | [_] => Ok 0%float
  | _ => do v <- ss_variance xs; Ok (PrimFloat.sqrt v)
  end.

(** The accumulators of [SimpleLinearRegression]: sums of x, y, x*x, x*y. *)
Definition regressSums (x y : list float) : float * float * float * float :=
  fold_left (fun '(xSum, ySum, xSquared, xY) '(xi, yi) =>
               ((xSum + xi)%float, (ySum + yi)%float,
                (xSquared + xi * xi)%float, (xY + xi * yi)%float))
            (combine x y) (0%float, 0%float, 0%float, 0%float).

(** [new SimpleLinearRegression(x, y).slope]. *)
Definition regressionSlope (x y : list float) : float :=
  let n := N2F (length x) in
  let '(xSum, ySum, xSquared, xY) := regressSums x y in
  let numerator := (n * xY - xSum * ySum)%float in
  (numerator / (n * xSquared - xSum * xSum))%float.

(* ===================================================================== *)
(** * Data model *)
(* ===================================================================== *)

Inductive MovementType : Type := IN | OUT | ADJUSTMENT.

Definition MovementType_eqb (a b : MovementType) : bool :=
  match a, b with
  | IN, IN | OUT, OUT | ADJUSTMENT, ADJUSTMENT => true
  | _, _ => false
  end.

(** A row of [stock_movements]; [quantity] is a Prisma [Int] and
    [createdAt] a time value. *)
Record StockMovement : Type := {
  m_productId : string;
  movementType : MovementType;
  quantity : Z;
  createdAt : Z
}.

(** A row of [products].  [unitPrice] is a Prisma [Decimal?]: [None] is
    [null], [Some v] a [Decimal] object whose [Number(...)] is [v]. *)
Record Product : Type := {
  product_id : string;
  categoryId : string;
  currentStock : Z;
  unitPrice : option float
}.

(** An element of the array built by [getHistoricalDemandData]. *)
Record DemandObservation : Type := {
  date : Z;
  demand : float;
  dayOfWeek : Z;
  dayOfMonth : Z;
  month : Z;
  isWeekend : bool
}.

Record ForecastPoint : Type := {
  p_date : Z;
  predictedDemand : float;
  confidence : float;
  upperBound : float;
  lowerBound : float
}.

Inductive ModelType : Type := STATISTICAL | NEURAL_NETWORK.

Record ForecastResult : Type := {
  f_productId : string;
  predictions : list ForecastPoint;
  accuracy : float;
  modelType : ModelType
}.

Inductive Level : Type := LOW | MEDIUM | HIGH.

Record OptimizationResult : Type := {
  o_productId : string;
  o_currentStock : Z;
  optimalStock : float;
  reorderPoint : float;
  expectedSavings : float;
  riskLevel : Level
}.

Record AnomalyRecord : Type := {
  a_date : Z;
  actualDemand : float;
  expectedDemand : float;
  anomalyScore : float;
  severity : Level
}.

Record AnomalyDetection : Type := {
  a_productId : string;
  anomalies : list AnomalyRecord
}.

(** The interface of a [tf.LayersModel]: [fit] trains the model in place
    on inputs and outputs, [predict] evaluates it on one feature vector. *)
Class TensorFlow (LayersModel : Type) : Type := {
  fit : LayersModel -> list (list float) -> list float -> LayersModel;
  predict : LayersModel -> list float -> float
}.

(** What the service reads and writes: the two tables, the cache (keyed by
    product and horizon, the parsed value stored), the model map of the
    service, the clock and the host time zone. *)
Record World (LayersModel : Type) : Type := {
  products : gmap string Product;
  stockMovements : list StockMovement;
  cacheStore : gmap (string * Z) ForecastResult;
  models : gmap string LayersModel;
  now : Z;
  zone : Zone
}.
Arguments products {LayersModel} w.
Arguments stockMovements {LayersModel} w.
Arguments cacheStore {LayersModel} w.
Arguments models {LayersModel} w.
Arguments now {LayersModel} w.
Arguments zone {LayersModel} w.

Definition setModels {LayersModel} (w : World LayersModel)
    (ms : gmap string LayersModel) : World LayersModel :=
  {| products := products w; stockMovements := stockMovements w;
     cacheStore := cacheStore w; models := ms; now := now w; zone := zone w |}.

Definition setCache {LayersModel} (w : World LayersModel)
    (c : gmap (string * Z) ForecastResult) : World LayersModel :=
  {| products := products w; stockMovements := stockMovements w;
     cacheStore := c; models := models w; now := now w; zone := zone w |}.

(** [orderBy: { createdAt: 'asc' }], a stable insertion sort. *)
Fixpoint insertByCreatedAt (m : StockMovement) (l : list StockMovement)
  : list StockMovement :=
  match l with
  | [] => [m]
  | x :: rest =>
      if createdAt m <? createdAt x then m :: l
      else x :: insertByCreatedAt m rest
  end.

Definition sortByCreatedAt (l : list StockMovement) : list StockMovement :=
  fold_right insertByCreatedAt [] l.

(** The [where] clause of the movement query. *)
Definition outboundSince (productId : string) (startDate : Z)
    (m : StockMovement) : bool :=
  String.eqb (m_productId m) productId
  && MovementType_eqb (movementType m) OUT
  && (startDate <=? createdAt m).

(** [i = hi - 1, ..., 0], the counter of a descending loop. *)
Definition countdown (hi : Z) : list Z :=
  map Z.of_nat (rev (seq 0 (Z.to_nat hi))).

(** [i = 0, ..., hi - 1]. *)
Definition countup (hi : Z) : list Z :=
  map Z.of_nat (seq 0 (Z.to_nat hi)).

(** [a.slice(-k)] for [0 <= k <= a.length]. *)
Definition lastN {A} (k : nat) (l : list A) : list A :=
  skipn (length l - k) l.

(** [a.slice(lo, hi)] for [0 <= lo <= hi]. *)
Definition slice {A} (lo hi : nat) (l : list A) : list A :=
  firstn (hi - lo) (skipn lo l).

Definition emptyObservation : DemandObservation :=
  {| date := 0; demand := nan; dayOfWeek := 0; dayOfMonth := 0; month := 0;
     isWeekend := false |}.

(* ===================================================================== *)
(** * The service *)
(* ===================================================================== *)

Section AIService.
Context {LayersModel : Type} {TF : TensorFlow LayersModel}.

(** ** getHistoricalDemandData *)

(** The body of [movements.forEach]: one update of the [dailyDemand] map. *)
Definition addMovement (dailyDemand : gmap Z float)
    (movement : StockMovement) : gmap Z float :=
  let date := isoDate (createdAt movement) in
  let current := orZero (dailyDemand !! date) in
  <[date := (current + PrimFloat.abs (Z2F (quantity movement)))%float]>
    dailyDemand.

Definition groupByDay (movements : list StockMovement) : gmap Z float :=
  fold_left addMovement movements ∅.

Definition getHistoricalDemandData (w : World LayersModel)
    (productId : string) (days : Z) : list DemandObservation :=
  let startDate := addLocalDays (zone w) (now w) (- days) in
  let movements :=
    sortByCreatedAt
      (List.filter (outboundSince productId startDate) (stockMovements w)) in
  let dailyDemand := groupByDay movements in
  map (fun i =>
         let date := addLocalDays (zone w) (now w) (- i) in
         let dateStr := isoDate date in
         {| date := dateStr;
            demand := orZero (dailyDemand !! dateStr);
            dayOfWeek := getDay (zone w) date;
            dayOfMonth := getDate (zone w) date;
            month := getMonth (zone w) date;
            isWeekend := (getDay (zone w) date =? 0)
                         || (getDay (zone w) date =? 6) |})
      (countdown days).

(** ** generateStatisticalForecast *)

Definition calculateTrend (demands : list float) : float :=
  if (length demands <? 2)%nat then 0%float
  else regressionSlope (map N2F (seq 0 (length demands))) demands.

Definition getSeasonalFactor (w : World LayersModel) (dayOffset : Z)
    (historicalData : list DemandObservation) : result float :=
  let futureDate := addLocalDays (zone w) (now w) dayOffset in
  let dayOfWeek := getDay (zone w) futureDate in
  let sameDayDemands :=
    map demand
      (List.filter
         (fun d => getDay (zone w) (parseISODate (date d)) =? dayOfWeek)
         historicalData) in
  match sameDayDemands with
  | [] => Ok 1%float
  | _ =>
      do avgSameDayDemand <- ss_mean sameDayDemands;
      do overallAverage <- ss_mean (map demand historicalData);
      Ok (if (overallAverage =? 0)%float then 1%float
          else (avgSameDayDemand / overallAverage)%float)
  end.

(** One iteration of the prediction loop.  [confidence] and [margin] are
    [const]s of the loop body. *)
Definition statisticalPoint (w : World LayersModel)
    (historicalData : list DemandObservation)
    (mean stdDev trend recentAverage : float) (i : Z)
  : result ForecastPoint :=
  let trendAdjustment := (trend * Z2F (i + 1))%float in
  do seasonalFactor <- getSeasonalFactor w i historicalData;
  let predictedDemand :=
    Math_max 0 (Math_round ((recentAverage + trendAdjustment)
                            * seasonalFactor)%float) in
  let confidence := Math_max 0.3 (1 - stdDev / mean)%float in
  let margin := (stdDev * 1.96)%float in
  let date := addLocalDays (zone w) (now w) (i + 1) in
  Ok {| p_date := isoDate date;
        predictedDemand := predictedDemand;
        confidence := (Math_round (confidence * 100) / 100)%float;
        upperBound := Math_round (predictedDemand + margin)%float;
        lowerBound := Math_max 0 (Math_round (predictedDemand - margin)%float)
     |}.

(** The number-valued identifiers bound where the [return] statement of
    [generateStatisticalForecast] stands: the parameter [days] and the
    [const]s of the function body.  ([productId], [historicalData],
    [demands] and [predictions] are bound there too and are not numbers.)
    The [const]s of the loop body, [confidence] among them, are bound only
    inside the loop. *)
Definition returnScope (days : Z) (mean stdDev trend : float)
    (windowSize : nat) (recentAverage : float) : list (string * float) :=
  [ ("days"%string, Z2F days);
    ("mean"%string, mean);
    ("stdDev"%string, stdDev);
    ("trend"%string, trend);
    ("windowSize"%string, N2F windowSize);
    ("recentAverage"%string, recentAverage) ].

(** Evaluation of an identifier: its binding, or a [ReferenceError]. *)
Fixpoint resolveIdentifier (name : string) (scope : list (string * float))
  : result float :=
  match scope with
  | [] => Err (ReferenceError name)
  | (x, v) :: rest =>
      if String.eqb x name then Ok v else resolveIdentifier name rest
  end.

(** The statements of [generateStatisticalForecast] before its [return]:
    the [predictions] array and the bindings in scope at the [return]. *)
Definition statisticalBody (w : World LayersModel)
    (historicalData : list DemandObservation) (days : Z)
  : result (list ForecastPoint * list (string * float)) :=
  let demands := map demand historicalData in
  do mean <- ss_mean demands;
  do stdDev <- ss_standardDeviation demands;
  let trend := calculateTrend demands in
  let windowSize := Nat.min 7 (length demands) in
  do recentAverage <- ss_mean (lastN windowSize demands);
  do predictions <-
    mapM (statisticalPoint w historicalData mean stdDev trend recentAverage)
         (countup days);
  Ok (predictions,
      returnScope days mean stdDev trend windowSize recentAverage).

(** The [return] statement reads [accuracy: confidence]. *)
Definition generateStatisticalForecast (w : World LayersModel)
    (productId : string) (historicalData : list DemandObservation)
    (days : Z) : result ForecastResult :=
  do body <- statisticalBody w historicalData days;
  let '(predictions, scope) := body in
  do accuracy <- resolveIdentifier "confidence" scope;
  Ok {| f_productId := productId;
        predictions := predictions;
        accuracy := accuracy;
        modelType := STATISTICAL |}.

(** ** generateNeuralNetworkForecast *)

Definition featuresAt (historicalData : list DemandObservation) (i : nat)
  : list float :=
  map (fun j => demand (nth (i - j) historicalData emptyObservation))
      [7; 6; 5; 4; 3; 2; 1]%nat
  ++ [ Z2F (dayOfWeek (nth i historicalData emptyObservation));
       Z2F (dayOfMonth (nth i historicalData emptyObservation));
       Z2F (month (nth i historicalData emptyObservation)) ].

Definition prepareTrainingData (historicalData : list DemandObservation)
  : list (list float) * list float :=
  let windowSize := 10%nat in
  let indices := seq windowSize (length historicalData - windowSize) in
  (map (featuresAt historicalData) indices,
   map (fun i => demand (nth i historicalData emptyObservation)) indices).

Definition updateFeatures (w : World LayersModel) (features : list float)
    (newDemand : float) (dayOffset : Z) : list float :=
  let shifted :=
    fold_left (fun newFeatures i =>
                 <[i := nth (S i) newFeatures nan]> newFeatures)
              (seq 0 6) features in
  let futureDate := addLocalDays (zone w) (now w) dayOffset in
  <[9%nat := Z2F (getMonth (zone w) futureDate)]>
    (<[8%nat := Z2F (getDate (zone w) futureDate)]>
       (<[7%nat := Z2F (getDay (zone w) futureDate)]>
          (<[6%nat := newDemand]> shifted))).

Definition calculatePredictionConfidence (prediction : float)
    (historicalData : list DemandObservation) : result float :=
  let demands := map demand historicalData in
  do mean <- ss_mean demands;
  do stdDev <- ss_standardDeviation demands;
  let deviation := PrimFloat.abs (prediction - mean)%float in
  let normalizedDeviation :=
    if (stdDev =? 0)%float then 0%float else (deviation / stdDev)%float in
  Ok (Math_max 0.3 (Math_min 0.95 (1 - normalizedDeviation * 0.1)%float)).

(** The loop of [calculateModelAccuracy]: total error and number of
    non-zero outputs. *)
Definition mapeSums (outputs predictionData : list float) : float * float :=
  fold_left (fun '(totalError, validPredictions) '(o, p) =>
               if negb (o =? 0)%float
               then ((totalError + PrimFloat.abs ((o - p) / o))%float,
                     (validPredictions + 1)%float)
               else (totalError, validPredictions))
            (combine outputs predictionData) (0%float, 0%float).

Definition calculateModelAccuracy (model : LayersModel)
    (inputs : list (list float)) (outputs : list float) : float :=
  match inputs with
  | [] => 0.5%float
  | _ =>
      let predictionData := map (predict model) inputs in
      let '(totalError, validPredictions) := mapeSums outputs predictionData in
      let mape :=
        if (0 <? validPredictions)%float
        then (totalError / validPredictions)%float else 1%float in
      Math_max 0 (1 - mape)%float
  end.

(** The prediction loop: [lastFeatures] is carried from one day to the
    next. *)
Fixpoint neuralPredictions (w : World LayersModel) (model : LayersModel)
    (historicalData : list DemandObservation) (steps : list Z)
    (lastFeatures : list float) : result (list ForecastPoint) :=
  match steps with
  | [] => Ok []
  | i :: rest =>
      let predictedValue := predict model lastFeatures in
      let predictedDemand := Math_max 0 (Math_round predictedValue) in
      do confidence <-
        calculatePredictionConfidence predictedDemand historicalData;
      let margin := (predictedDemand * 0.2)%float in
      let date := addLocalDays (zone w) (now w) (i + 1) in
      let point :=
        {| p_date := isoDate date;
           predictedDemand := predictedDemand;
           confidence := confidence;
           upperBound := Math_round (predictedDemand + margin)%float;
           lowerBound :=
             Math_max 0 (Math_round (predictedDemand - margin)%float) |} in
      do points <-
        neuralPredictions w model historicalData rest
          (updateFeatures w lastFeatures predictedDemand (i + 1));
      Ok (point :: points)
  end.

Definition generateNeuralNetworkForecast (w : World LayersModel)
    (product : Product) (historicalData : list DemandObservation)
    (days : Z) : result ForecastResult * World LayersModel :=
  match models w !! categoryId product with
  | None => (Err ModelNotFound, w)
  | Some model =>
      let '(inputs, outputs) := prepareTrainingData historicalData in
      if (length inputs <? 10)%nat
      then (generateStatisticalForecast w (product_id product)
              historicalData days, w)
      else
        let trained := fit model inputs outputs in
        let w' := setModels w (<[categoryId product := trained]> (models w)) in
        let lastFeatures := List.last inputs [] in
        (do predictions <-
           neuralPredictions w' trained historicalData (countup days)
             lastFeatures;
         let accuracy := calculateModelAccuracy trained inputs outputs in
         Ok {| f_productId := product_id product;
               predictions := predictions;
               accuracy := accuracy;
               modelType := NEURAL_NETWORK |},
         w')
  end.

(** ** generateDemandForecast *)

(** The statements of [generateDemandForecast] that follow the loading of
    [historicalData]: the choice of a forecaster and the caching of what
    the neural one returns. *)
Definition forecastFromHistory (w : World LayersModel) (productId : string)
    (product : Product) (historicalData : list DemandObservation) (days : Z)
  : result ForecastResult * World LayersModel :=
  if (length historicalData <? 30)%nat
  then (generateStatisticalForecast w productId historicalData days, w)
  else
    match generateNeuralNetworkForecast w product historicalData days with
    | (Ok forecast, w') =>
        (Ok forecast,
         setCache w' (<[(productId, days) := forecast]> (cacheStore w')))
    | (Err e, w') => (Err e, w')
    end.

Definition generateDemandForecast (w : World LayersModel)
    (productId : string) (days : Z)
  : result ForecastResult * World LayersModel :=
  let cacheKey := (productId, days) in
  match cacheStore w !! cacheKey with
  | Some cached => (Ok cached, w)
  | None =>
      match products w !! productId with
      | None => (Err ProductNotFound, w)
      | Some product =>
          let historicalData := getHistoricalDemandData w productId 180 in
          forecastFromHistory w productId product historicalData days
      end
  end.

(** ** optimizeStockLevels *)

Definition calculateDemandVariability (predictions : list ForecastPoint)
  : result float :=
  ss_standardDeviation (map predictedDemand predictions).

Definition calculateStockoutRisk (currentStock avgDemand variability : float)
  : float :=
  if (avgDemand =? 0)%float then 0%float
  else
    let daysOfStock := (currentStock / avgDemand)%float in
    let riskFactor := (variability / avgDemand)%float in
    Math_max 0 (Math_min 1 ((7 - daysOfStock) * riskFactor / 7)%float).

(** The body of [optimizeStockLevels] once the product and its 30-day
    forecast are at hand. *)
Definition optimizeFromForecast (productId : string) (product : Product)
    (forecast : ForecastResult) : result OptimizationResult :=
  let avgDailyDemand :=
    (fold_left (fun sum p => (sum + predictedDemand p)%float)
               (predictions forecast) 0%float / 30)%float in
  let annualDemand := (avgDailyDemand * 365)%float in
  let orderingCost := 50%float in
  let holdingCostRate := 0.25%float in
  let holdingCost :=
    match unitPrice product with
    | Some price => (price * holdingCostRate)%float
    | None => 10%float
    end in
  let eoq := PrimFloat.sqrt ((2 * annualDemand * orderingCost) / holdingCost) in
  do demandVariability <- calculateDemandVariability (predictions forecast);
  let zScore := 1.645%float in
  let leadTime := 7%float in
  let safetyStock := (zScore * PrimFloat.sqrt leadTime * demandVariability)%float in
  let reorderPoint := ((avgDailyDemand * leadTime) + safetyStock)%float in
  let optimalStock := (eoq + safetyStock)%float in
  let currentHoldingCost :=
    (Z2F (currentStock product) * holdingCost / 365 * 30)%float in
  let optimizedHoldingCost := (optimalStock * holdingCost / 365 * 30)%float in
  let expectedSavings :=
    Math_max 0 (currentHoldingCost - optimizedHoldingCost)%float in
  let stockoutRisk :=
    calculateStockoutRisk (Z2F (currentStock product)) avgDailyDemand
      demandVariability in
  let riskLevel :=
    if (0.2 <? stockoutRisk)%float then HIGH
    else if (0.1 <? stockoutRisk)%float then MEDIUM else LOW in
  Ok {| o_productId := productId;
        o_currentStock := currentStock product;
        optimalStock := Math_round optimalStock;
        reorderPoint := Math_round reorderPoint;
        expectedSavings := (Math_round (expectedSavings * 100) / 100)%float;
        riskLevel := riskLevel |}.

Definition optimizeStockLevels (w : World LayersModel) (productId : string)
  : result OptimizationResult * World LayersModel :=
  match products w !! productId with
  | None => (Err ProductNotFound, w)
  | Some product =>
      match generateDemandForecast w productId 30 with
      | (Ok forecast, w') => (optimizeFromForecast productId product forecast, w')
      | (Err e, w') => (Err e, w')
      end
  end.

(** ** detectAnomalies *)

(** One iteration of the z-score loop: the record pushed for day [i], if
    any. *)
Definition anomalyAt (historicalData : list DemandObservation)
    (demands : list float) (stdDev : float) (i : nat)
  : result (option AnomalyRecord) :=
  do recentAvg <- ss_mean (slice (i - 7) i demands);
  let currentDemand := nth i demands nan in
  let zScore :=
    if (stdDev =? 0)%float then 0%float
    else (PrimFloat.abs (currentDemand - recentAvg) / stdDev)%float in
  if (2 <? zScore)%float then
    let severity :=
      if (3 <? zScore)%float then HIGH
      else if (2.5 <? zScore)%float then MEDIUM else LOW in
    Ok (Some {| a_date := date (nth i historicalData emptyObservation);
                actualDemand := currentDemand;
                expectedDemand := Math_round recentAvg;
                anomalyScore := (Math_round (zScore * 100) / 100)%float;
                severity := severity |})
  else Ok None.

(** The body of [detectAnomalies] on the series it has built. *)
Definition detectInSeries (productId : string)
    (historicalData : list DemandObservation) : result AnomalyDetection :=
  let demands := map demand historicalData in
  if (length demands <? 14)%nat
  then Ok {| a_productId := productId; anomalies := [] |}
  else
    do mean <- ss_mean demands;
    do stdDev <- ss_standardDeviation demands;
    do flagged <-
      mapM (anomalyAt historicalData demands stdDev)
           (seq 7 (length historicalData - 7));
    Ok {| a_productId := productId; anomalies := omap (fun o => o) flagged |}.

Definition detectAnomalies (w : World LayersModel) (productId : string)
  : result AnomalyDetection :=
  detectInSeries productId (getHistoricalDemandData w productId 90).

End AIService.

(* ===================================================================== *)
(** * The confidence formula as the specification words it *)
(* ===================================================================== *)

(** Section 4.4, step 4: [1 - min(1, |prediction - mean| / stdDev) * 0.1],
    floored at 0.3 and capped at 0.95, the normalized deviation being 0
    when the standard deviation is 0. *)
Definition specPredictionConfidence (prediction mean stdDev : float) : float :=
  let normalizedDeviation :=
    if (stdDev =? 0)%float then 0%float
    else (PrimFloat.abs (prediction - mean) / stdDev)%float in
  Math_min 0.95
    (Math_max 0.3 (1 - Math_min 1 normalizedDeviation * 0.1)%float).

(** The same without the inner [min(1, _)]: the deviation is not bounded
    before it is scaled. *)
Definition amendedPredictionConfidence (prediction mean stdDev : float)
  : float :=
  let normalizedDeviation :=
    if (stdDev =? 0)%float then 0%float
    else (PrimFloat.abs (prediction - mean) / stdDev)%float in
  Math_min 0.95 (Math_max 0.3 (1 - normalizedDeviation * 0.1)%float).

(* ===================================================================== *)
(** * A backend, series and worlds to evaluate the service on *)
(* ===================================================================== *)

(** A model is the number it predicts and the number of times it was
    trained. *)
Definition counting : TensorFlow (float * nat) :=
  {| fit := fun model _ _ => (fst model, S (snd model));
     predict := fun model _ => fst model |}.

(** A series of [n] days, day [k] having demand [f k]. *)
Definition seriesOf (f : nat -> float) (n : nat) : list DemandObservation :=
  map (fun k => {| date := Z.of_nat k;
                   demand := f k;
                   dayOfWeek := WeekDay (Z.of_nat k);
                   dayOfMonth := snd (civilFromDays (Z.of_nat k));
                   month := snd (fst (civilFromDays (Z.of_nat k))) - 1;
                   isWeekend := (WeekDay (Z.of_nat k) =? 0)
                                || (WeekDay (Z.of_nat k) =? 6) |})
      (seq 0 n).

(** 2024-06-30T23:30:00Z. *)
Definition sampleNow : Z := 19904 * msPerDay + 84600000.

(** Europe/Berlin in 2024: UTC+1, and UTC+2 from 31 March 01:00 UTC to
    27 October 01:00 UTC.  A wall-clock time of the skipped hour (02:00 to
    03:00 on 31 March) and one of the repeated hour (02:00 to 03:00 on
    27 October) is read with the offset in force before the change. *)
Definition berlin2024 : Zone :=
  let start := 19813 * msPerDay + 3600000 in
  let stop := 20023 * msPerDay + 3600000 in
  {| offsetAtUTC := fun t =>
       if (start <=? t) && (t <? stop) then 7200000 else 3600000;
     offsetAtLocal := fun tl =>
       if (start + 7200000 <=? tl) && (tl <? stop + 7200000)
       then 7200000 else 3600000 |}.

(** A store with a priced product, a product whose price is 0, a product
    of a category without a model, movements of the first on three days
    and a model that predicts 10 a day. *)
Definition shop (z : Zone) : World (float * nat) :=
  {| products :=
       {[ "widget"%string :=
            {| product_id := "widget"; categoryId := "tools";
               currentStock := 100; unitPrice := Some 12.5%float |};
          "sample"%string :=
            {| product_id := "sample"; categoryId := "tools";
               currentStock := 100; unitPrice := Some 0%float |};
          "novelty"%string :=
            {| product_id := "novelty"; categoryId := "unlisted";
               currentStock := 5; unitPrice := None |} ]};
     stockMovements :=
       [ {| m_productId := "widget"; movementType := OUT; quantity := -4;
            createdAt := sampleNow - 3 * msPerDay |};
         {| m_productId := "widget"; movementType := OUT; quantity := 6;
            createdAt := sampleNow - 3 * msPerDay + 1000 |};
         {| m_productId := "widget"; movementType := IN; quantity := 50;
            createdAt := sampleNow - 2 * msPerDay |};
         {| m_productId := "widget"; movementType := OUT; quantity := 7;
            createdAt := sampleNow - msPerDay |} ];
     cacheStore := ∅;
     models := {[ "tools"%string := (10%float, 0%nat) ]};
     now := sampleNow;
     zone := z |}.

(** The same store with a model that predicts no demand. *)
Definition idleShop : World (float * nat) :=
  setModels (shop (fixedZone 0)) {[ "tools"%string := (0%float, 0%nat) ]}.

Definition staleForecast : ForecastResult :=
  {| f_productId := "ghost"; predictions := []; accuracy := 0.5%float;
     modelType := NEURAL_NETWORK |}.

(** The same store with a cached forecast of a product that is gone. *)
Definition staleShop : World (float * nat) :=
  setCache (shop (fixedZone 0)) {[ ("ghost"%string, 30) := staleForecast ]}.

(** Thirty points that all predict [d]. *)
Definition flatForecast (d : float) : ForecastResult :=
  {| f_productId := "flat";
     predictions :=
       repeat {| p_date := 0; predictedDemand := d; confidence := 0.95%float;
                 upperBound := d; lowerBound := d |} 30;
     accuracy := 0.9%float;
     modelType := NEURAL_NETWORK |}.

(** Every point predicts no demand and carries no confidence figure. *)
Definition allZeroWithoutConfidence (points : list ForecastPoint) : bool :=
  forallb (fun p => (predictedDemand p =? 0)%float
                    && PrimFloat.is_nan (confidence p)) points.

(* ===================================================================== *)
(** * Integers as binary64 values *)
(* ===================================================================== *)

(** Number of binary digits of a positive integer. *)
Definition dg (p : positive) : Z := Zpos (digits2_pos p).

Definition signedZ (s : bool) (n : positive) : Z :=
  if s then Zneg n else Zpos n.

(** The binary64 representation of an integer of magnitude below [2^53]:
    the mantissa is the integer shifted up to 53 digits. *)
Definition intSF (z : Z) : spec_float :=
  match z with
  | Z0 => S754_zero false
  | Zpos n =>
      S754_finite false (Z.to_pos (Zpos n * 2 ^ (53 - dg n))) (dg n - 53)
  | Zneg n =>
      S754_finite true (Z.to_pos (Zpos n * 2 ^ (53 - dg n))) (dg n - 53)
  end.

(** The representations of 0.3 and of 0.95. *)
Definition sfFloor : spec_float := S754_finite false 5404319552844595 (-54).
Definition sfCap : spec_float := S754_finite false 8556839292003942 (-53).

(** How a representation compares with those of 0.3 and 0.95. *)
Inductive sfBand (x : spec_float) : Prop :=
| sfBand_nan : SFeqb x x = false ->
    SFltb x sfFloor = false -> SFltb sfFloor x = false ->
    SFltb x sfCap = false -> SFltb sfCap x = false -> sfBand x
| sfBand_low : SFeqb x x = true ->
    SFltb x sfFloor = true -> SFltb sfFloor x = false ->
    SFltb x sfCap = true -> SFltb sfCap x = false -> sfBand x
| sfBand_floor : x = sfFloor -> sfBand x
| sfBand_mid : SFeqb x x = true ->
    SFltb x sfFloor = false -> SFltb sfFloor x = true ->
    SFltb x sfCap = true -> SFltb sfCap x = false -> sfBand x
| sfBand_cap : x = sfCap -> sfBand x
| sfBand_high : SFeqb x x = true ->
    SFltb x sfFloor = false -> SFltb sfFloor x = true ->
    SFltb x sfCap = false -> SFltb sfCap x = true -> sfBand x.

(** The comparisons of a number with 0.3 and 0.95 that [Math.max] and
    [Math.min] make. *)
Record comparisons (v : float) (n a b c d : bool) : Prop := {
  cmp_nan : PrimFloat.is_nan v = n;
  cmp_below_floor : (v <? 0.3)%float = a;
  cmp_above_floor : (0.3 <? v)%float = b;
  cmp_below_cap : (v <? 0.95)%float = c;
  cmp_above_cap : (0.95 <? v)%float = d
}.

Inductive band (v : float) : Prop :=
| band_nan : comparisons v true false false false false -> band v
| band_low : comparisons v false true false true false -> band v
| band_floor : v = 0.3%float -> band v
| band_mid : comparisons v false false true true false -> band v
| band_cap : v = 0.95%float -> band v
| band_high : comparisons v false false true false true -> band v.

(* ===================================================================== *)
(** * What a forecast request does, and what it returns *)
(* ===================================================================== *)

Section Outcomes.
Context {LayersModel : Type} {TF : TensorFlow LayersModel}.

(** What a forecast request does, case by case. *)
Inductive ForecastOutcome (w : World LayersModel) (productId : string)
    (days : Z) : result ForecastResult -> World LayersModel -> Prop :=
| outcome_hit (cached : ForecastResult) :
    cacheStore w !! (productId, days) = Some cached ->
    ForecastOutcome w productId days (Ok cached) w
| outcome_unknown :
    cacheStore w !! (productId, days) = None ->
    products w !! productId = None ->
    ForecastOutcome w productId days (Err ProductNotFound) w
| outcome_no_model (product : Product) :
    cacheStore w !! (productId, days) = None ->
    products w !! productId = Some product ->
    models w !! categoryId product = None ->
    ForecastOutcome w productId days (Err ModelNotFound) w
| outcome_trained (product : Product) (model : LayersModel)
    (forecast : ForecastResult) :
    cacheStore w !! (productId, days) = None ->
    products w !! productId = Some product ->
    models w !! categoryId product = Some model ->
    modelType forecast = NEURAL_NETWORK ->
    length (predictions forecast) = Z.to_nat days ->
    ForecastOutcome w productId days (Ok forecast)
      (setCache
         (setModels w
            (<[categoryId product :=
                 fit model
                   (fst (prepareTrainingData
                           (getHistoricalDemandData w productId 180)))
                   (snd (prepareTrainingData
                           (getHistoricalDemandData w productId 180)))]>
               (models w)))
         (<[(productId, days) := forecast]> (cacheStore w))).

End Outcomes.

(** A forecast point whose demand and lower bound are not negative and
    whose confidence is neither below 0.3 nor above 0.95. *)
Definition wellFormedPoint (p : ForecastPoint) : Prop :=
  (predictedDemand p <? 0)%float = false
  /\ (lowerBound p <? 0)%float = false
  /\ (confidence p <? 0.3)%float = false
  /\ (0.95 <? confidence p)%float = false.

(** Date and demand of a flagged day, and of an observation. *)
Definition flaggedDay (a : AnomalyRecord) : Z * float :=
  (a_date a, actualDemand a).
Definition observedDay (o : DemandObservation) : Z * float :=
  (date o, demand o).

(** An outbound movement of the product. *)
Definition isOutboundOf (productId : string) (m : StockMovement) : bool :=
  String.eqb (m_productId m) productId
  && MovementType_eqb (movementType m) OUT.

(** Sum of the absolute quantities of the movements that [keep] retains. *)
Definition volume (keep : StockMovement -> bool)
    (movements : list StockMovement) : Z :=
  fold_right (fun m total => if keep m then Z.abs (quantity m) + total
                             else total) 0 movements.

(** Outbound volume of the product on a UTC day. *)
Definition dailyOutbound (movements : list StockMovement)
    (productId : string) (day : Z) : Z :=
  volume (fun m => isOutboundOf productId m && (isoDate (createdAt m) =? day))
         movements.

(** Outbound volume of the product over all days. *)
Definition outboundVolume (movements : list StockMovement)
    (productId : string) : Z :=
  volume (isOutboundOf productId) movements.

(* ===================================================================== *)
(** * The service over its lifetime, its scheduler and its cache *)
(* ===================================================================== *)

(** A row of [categories]. *)
Record Category : Type := {
  category_id : string;
  category_name : string
}.

(** [createDemandForecastModel]: the untrained model that
    [tf.sequential] and [model.compile] build. *)
Class ModelFactory (LayersModel : Type) : Type := {
  createDemandForecastModel : LayersModel
}.

(** An [AIService] object with what it reads at start-up: the world of its
    requests (whose [models] field is the [models] map of the object), the
    [isInitialized] flag, the rows of [categories] and the model files
    under [./models], by category. *)
Record Service (LayersModel : Type) : Type := {
  world : World LayersModel;
  isInitialized : bool;
  categories : list Category;
  modelFiles : gmap string LayersModel
}.
Arguments world {LayersModel} s.
Arguments isInitialized {LayersModel} s.
Arguments categories {LayersModel} s.
Arguments modelFiles {LayersModel} s.

Definition withModels {LayersModel} (s : Service LayersModel)
    (ms : gmap string LayersModel) : Service LayersModel :=
  {| world := setModels (world s) ms; isInitialized := isInitialized s;
     categories := categories s; modelFiles := modelFiles s |}.

Section Lifetime.
Context {LayersModel : Type} {MF : ModelFactory LayersModel}.

(** [tf.loadLayersModel] fails when there is no file: the [catch] creates
    a model. *)
Definition loadOrCreateModel (s : Service LayersModel) (categoryId : string)
  : LayersModel :=
  match modelFiles s !! categoryId with
  | Some model => model
  | None => createDemandForecastModel
  end.

Definition initializeModels (s : Service LayersModel) : Service LayersModel :=
  fold_left (fun s' category =>
               withModels s'
                 (<[category_id category :=
                      loadOrCreateModel s' (category_id category)]>
                    (models (world s'))))
            (categories s) s.

Definition initialize (s : Service LayersModel) : Service LayersModel :=
  if isInitialized s then s
  else
    let s' := initializeModels s in
    {| world := world s'; isInitialized := true;
       categories := categories s'; modelFiles := modelFiles s' |}.

(** [cleanup]: every model is disposed of and the map is cleared. *)
Definition cleanup (s : Service LayersModel) : Service LayersModel :=
  withModels s ∅.

(** The jobs that [AIScheduler.start] registers with [cron.schedule]. *)
Inductive Job : Type :=
| runDailyForecasts | runOptimizationChecks | runAnomalyDetection
| retrainModels | runCleanupTasks.

Definition cronJobs : list (string * Job) :=
  [ ("0 2 * * *"%string, runDailyForecasts);
    ("0 * * * *"%string, runOptimizationChecks);
    ("0 */4 * * *"%string, runAnomalyDetection);
    ("0 3 * * 0"%string, retrainModels);
    ("0 */6 * * *"%string, runCleanupTasks) ].

(** An [AIScheduler] object and the tasks registered with cron. *)
Record Scheduler : Type := {
  aiService : Service LayersModel;
  isRunning : bool;
  cronTasks : list (string * Job)
}.

Definition start (sch : Scheduler) : Scheduler :=
  if isRunning sch then sch
  else {| aiService := initialize (aiService sch);
          isRunning := true;
          cronTasks := cronTasks sch ++ cronJobs |}.

Definition stop (sch : Scheduler) : Scheduler :=
  if negb (isRunning sch) then sch
  else {| aiService := cleanup (aiService sch);
          isRunning := false;
          cronTasks := cronTasks sch |}.

End Lifetime.

(** An entry of the in-memory cache of [CacheService]. *)
Record CacheEntry : Type := {
  entry_value : string;
  expiry : Z
}.

(** The Redis client, as far as [CacheService] uses it. *)
Class RedisClient (Client : Type) : Type := {
  redis_get : Client -> string -> option string;
  redis_setEx : Client -> string -> Z -> string -> Client;
  redis_del : Client -> string -> Client;
  redis_flushAll : Client -> Client
}.

Record CacheService (Client : Type) : Type := {
  client : Client;
  isConnected : bool;
  fallbackCache : gmap string CacheEntry
}.
Arguments client {Client} c.
Arguments isConnected {Client} c.
Arguments fallbackCache {Client} c.

Section Cache.
Context {Client : Type} {RC : RedisClient Client}.

Definition withFallback (c : CacheService Client)
    (m : gmap string CacheEntry) : CacheService Client :=
  {| client := client c; isConnected := isConnected c; fallbackCache := m |}.

Definition withClient (c : CacheService Client) (cl : Client)
  : CacheService Client :=
  {| client := cl; isConnected := isConnected c;
     fallbackCache := fallbackCache c |}.

(** [get(key)] at time [t] ([Date.now()]). *)
Definition cache_get (c : CacheService Client) (t : Z) (key : string)
  : option string :=
  if isConnected c then redis_get (client c) key
  else
    match fallbackCache c !! key with
    | Some entry => if t <? expiry entry then Some (entry_value entry) else None
    | None => None
    end.

(** [set(key, value, ttl)] at time [t]. *)
Definition cache_set (c : CacheService Client) (t : Z) (key value : string)
    (ttl : Z) : CacheService Client :=
  if isConnected c then withClient c (redis_setEx (client c) key ttl value)
  else
    withFallback c
      (<[key := {| entry_value := value; expiry := t + ttl * 1000 |}]>
         (fallbackCache c)).

Definition cache_del (c : CacheService Client) (key : string)
  : CacheService Client :=
  if isConnected c then withClient c (redis_del (client c) key)
  else withFallback c (delete key (fallbackCache c)).

Definition cache_flush (c : CacheService Client) : CacheService Client :=
  if isConnected c then withClient c (redis_flushAll (client c))
  else withFallback c ∅.

(** The body of the timer of [setupFallbackCache] at time [t]: entries
    whose expiry is before [t] are deleted. *)
Definition cleanExpired (c : CacheService Client) (t : Z)
  : CacheService Client :=
  withFallback c
    (filter (fun kv => ~ (expiry (snd kv) < t)) (fallbackCache c)).

End Cache.

(* ===================================================================== *)
(** * The forecast over the cache service *)
(* ===================================================================== *)

(** [JSON.stringify] and [JSON.parse] on forecasts; [JSON.parse] throws on
    a string that is not JSON. *)
Class JSON : Type := {
  JSON_stringify : ForecastResult -> string;
  JSON_parse : string -> result ForecastResult
}.

(** The template literal [`forecast:${productId}:${days}`]. *)
Definition cacheKey (productId : string) (days : Z) : string :=
  "forecast:" +:+ productId +:+ ":" +:+ pretty days.

(** [generateDemandForecast] and [optimizeStockLevels] with the cache that
    [CacheService] is, in place of the map [cacheStore]: its entries are
    strings that expire, and it is read and written at the time [now] of
    the world. *)
Module WithCacheService.
Section WithCacheService.
Context {LayersModel : Type} {TF : TensorFlow LayersModel}
        {Client : Type} {RC : RedisClient Client} {J : JSON}.

(** [if (cached)] holds for a string that is not empty: the first branch.
    The computed forecast is stored for 3600 seconds. *)
Definition generateDemandForecast (c : CacheService Client)
    (w : World LayersModel) (productId : string) (days : Z)
  : result ForecastResult * World LayersModel * CacheService Client :=
  let cacheKey := cacheKey productId days in
  match cache_get c (now w) cacheKey with
  | Some (String a cached) => (JSON_parse (String a cached), w, c)
  | _ =>
      match products w !! productId with
      | None => (Err ProductNotFound, w, c)
      | Some product =>
          let historicalData := getHistoricalDemandData w productId 180 in
          if (length historicalData <? 30)%nat
          then (generateStatisticalForecast w productId historicalData days,
                w, c)
          else
            match generateNeuralNetworkForecast w product historicalData
                    days with
            | (Ok forecast, w') =>
                (Ok forecast, w',
                 cache_set c (now w') cacheKey (JSON_stringify forecast) 3600)
            | (Err e, w') => (Err e, w', c)
            end
      end
  end.

Definition optimizeStockLevels (c : CacheService Client)
    (w : World LayersModel) (productId : string)
  : result OptimizationResult * World LayersModel * CacheService Client :=
  match products w !! productId with
  | None => (Err ProductNotFound, w, c)
  | Some product =>
      match generateDemandForecast c w productId 30 with
      | (Ok forecast, w', c') =>
          (optimizeFromForecast productId product forecast, w', c')
      | (Err e, w', c') => (Err e, w', c')
      end
  end.

End WithCacheService.
End WithCacheService.

(* ===================================================================== *)
(** * A service, a scheduler and a cache to evaluate them on *)
(* ===================================================================== *)

(** New models predict no demand and have not been trained. *)
Definition countingFactory : ModelFactory (float * nat) :=
  {| createDemandForecastModel := (0%float, 0%nat) |}.

(** A service over the sample store that has not been initialised: one
    category, no stored model. *)
Definition sampleService : Service (float * nat) :=
  {| world := setModels (shop (fixedZone 0)) ∅;
     isInitialized := false;
     categories := [ {| category_id := "tools"; category_name := "Tools" |} ];
     modelFiles := ∅ |}.

Definition sampleScheduler : Scheduler (LayersModel := float * nat) :=
  {| aiService := sampleService; isRunning := false; cronTasks := [] |}.

(** A Redis that could not be reached. *)
Definition noRedis : RedisClient unit :=
  {| redis_get := fun _ _ => None;
     redis_setEx := fun c _ _ _ => c;
     redis_del := fun c _ => c;
     redis_flushAll := fun c => c |}.

Definition offlineCache : CacheService unit :=
  {| client := tt; isConnected := false; fallbackCache := ∅ |}.

(** The forecast of a week for ["widget"] in the sample store and the one
    for ["sample"], which has no movements, each with the world it
    leaves. *)
Definition widgetRun : result ForecastResult * World (float * nat) :=
  generateDemandForecast (TF := counting) (shop (fixedZone 0)) "widget" 7.

Definition sampleRun : result ForecastResult * World (float * nat) :=
  generateDemandForecast (TF := counting) (shop (fixedZone 0)) "sample" 7.

Definition forecastOf (run : result ForecastResult * World (float * nat))
  : ForecastResult :=
  match fst run with Ok forecast => forecast | Err _ => staleForecast end.

(** A codec that keeps the product of a forecast. *)
Definition sampleJSON : JSON :=
  {| JSON_stringify := fun forecast => "forecast of " +:+ f_productId forecast;
     JSON_parse := fun text =>
       Ok {| f_productId := text; predictions := []; accuracy := 0.5%float;
             modelType := NEURAL_NETWORK |} |}.

(** The forecast of a week, and the optimisation, of ["widget"] in the
    sample store over a cache service without Redis. *)
Definition cachedRun
  : result ForecastResult * World (float * nat) * CacheService unit :=
  WithCacheService.generateDemandForecast (TF := counting) (RC := noRedis)
    (J := sampleJSON) offlineCache (shop (fixedZone 0)) "widget" 7.

Definition cachedOptimization
  : result OptimizationResult * World (float * nat) * CacheService unit :=
  WithCacheService.optimizeStockLevels (TF := counting) (RC := noRedis)
    (J := sampleJSON) offlineCache (shop (fixedZone 0)) "widget".

Definition optimizationOf (r : result OptimizationResult)
  : OptimizationResult :=
  match r with
  | Ok optimization => optimization
  | Err _ => {| o_productId := EmptyString; o_currentStock := 0;
                optimalStock := 0; reorderPoint := 0; expectedSavings := 0;
                riskLevel := LOW |}
  end.

(* ===================================================================== *)
(** * Shape of the built series and of the training set *)
(* ===================================================================== *)

Section Structure.
Context {LayersModel : Type} {TF : TensorFlow LayersModel}.

Lemma countdown_length (hi : Z) : length (countdown hi) = Z.to_nat hi.
Proof.
  unfold countdown.
  now rewrite List.length_map, List.length_rev, List.length_seq.
Qed.

Lemma countup_length (hi : Z) : length (countup hi) = Z.to_nat hi.
Proof.
  unfold countup.
  now rewrite List.length_map, List.length_seq.
Qed.

(** The builder pushes one observation per value of its loop counter. *)
Lemma getHistoricalDemandData_length (w : World LayersModel)
    (productId : string) (days : Z) :
  length (getHistoricalDemandData w productId days) = Z.to_nat days.
Proof.
  unfold getHistoricalDemandData.
  now rewrite List.length_map, countdown_length.
Qed.

(** One training window per day from the eleventh on. *)
Lemma prepareTrainingData_length (historicalData : list DemandObservation) :
  length (fst (prepareTrainingData historicalData))
  = (length historicalData - 10)%nat.
Proof.
  unfold prepareTrainingData; simpl.
  now rewrite List.length_map, List.length_seq.
Qed.

Lemma ss_mean_cons (x : float) (xs : list float) :
  exists m, ss_mean (x :: xs) = Ok m.
Proof. eexists; reflexivity. Qed.

Lemma ss_standardDeviation_cons (x : float) (xs : list float) :
  exists sd, ss_standardDeviation (x :: xs) = Ok sd.
Proof.
  destruct xs as [|y ys]; [eexists; reflexivity|].
  unfold ss_standardDeviation, ss_variance, sumSquaredDeviations.
  destruct (ss_mean_cons x (y :: ys)) as [m ->].
  eexists; reflexivity.
Qed.

Lemma calculatePredictionConfidence_cons (prediction : float)
    (o : DemandObservation) (rest : list DemandObservation) :
  exists c, calculatePredictionConfidence prediction (o :: rest) = Ok c.
Proof.
  unfold calculatePredictionConfidence.
  change (map demand (o :: rest)) with (demand o :: map demand rest).
  destruct (ss_mean_cons (demand o) (map demand rest)) as [m ->].
  destruct (ss_standardDeviation_cons (demand o) (map demand rest)) as [sd ->].
  eexists; reflexivity.
Qed.

(** The neural prediction loop completes on a non-empty history and
    yields one point per step. *)
Lemma neuralPredictions_ok (w : World LayersModel) (model : LayersModel)
    (o : DemandObservation) (rest : list DemandObservation)
    (steps : list Z) :
  forall lastFeatures,
  exists points,
    neuralPredictions w model (o :: rest) steps lastFeatures = Ok points
    /\ length points = length steps.
Proof.
  induction steps as [|i steps IH]; intros lastFeatures.
  - exists []; split; reflexivity.
  - cbn [neuralPredictions].
    destruct (calculatePredictionConfidence_cons
                (Math_max 0 (Math_round (predict model lastFeatures))) o rest)
      as [c ->].
    cbn [rbind].
    match goal with
    | |- context [neuralPredictions w model (o :: rest) steps ?f] =>
        destruct (IH f) as [points [-> Hlen]]
    end.
    cbn [rbind]. eexists; split; [reflexivity|].
    cbn [length]; now rewrite Hlen.
Qed.

(** Evaluating [accuracy: confidence] at the [return] raises: the name is
    bound in no enclosing scope. *)
Lemma confidence_unbound (days : Z) (mean stdDev trend : float)
    (windowSize : nat) (recentAverage : float) :
  resolveIdentifier "confidence"
    (returnScope days mean stdDev trend windowSize recentAverage)
  = Err (ReferenceError "confidence").
Proof. reflexivity. Qed.

Lemma statisticalBody_scope (w : World LayersModel)
    (historicalData : list DemandObservation) (days : Z)
    (points : list ForecastPoint) (scope : list (string * float)) :
  statisticalBody w historicalData days = Ok (points, scope) ->
  resolveIdentifier "confidence" scope = Err (ReferenceError "confidence").
Proof.
  unfold statisticalBody.
  destruct (ss_mean (map demand historicalData)) as [m|e]; [|discriminate].
  destruct (ss_standardDeviation (map demand historicalData)) as [sd|e];
    [|discriminate].
  cbn [rbind].
  destruct (ss_mean _) as [ra|e]; [|discriminate].
  cbn [rbind].
  destruct (mapM _ _) as [ps|e]; [|discriminate].
  cbn [rbind]. intros [= <- <-]. apply confidence_unbound.
Qed.

(** The statistical forecaster yields no result, whatever it is given. *)
Lemma generateStatisticalForecast_fails (w : World LayersModel)
    (productId : string) (historicalData : list DemandObservation)
    (days : Z) :
  exists e, generateStatisticalForecast w productId historicalData days = Err e.
Proof.
  unfold generateStatisticalForecast.
  destruct (statisticalBody w historicalData days) as [[points scope]|e] eqn:Hb.
  - cbn [rbind]. rewrite (statisticalBody_scope _ _ _ _ _ Hb).
    eexists; reflexivity.
  - eexists; reflexivity.
Qed.

(** The neural forecaster on a history that gives at least 10 windows and
    a category that has a model: the model is trained and a result of type
    NEURAL_NETWORK with one point per day is returned. *)
Lemma generateNeuralNetworkForecast_trains (w : World LayersModel)
    (product : Product) (historicalData : list DemandObservation)
    (days : Z) (model : LayersModel) :
  models w !! categoryId product = Some model ->
  (10 <= length (fst (prepareTrainingData historicalData)))%nat ->
  exists forecast,
    generateNeuralNetworkForecast w product historicalData days
    = (Ok forecast,
       setModels w
         (<[categoryId product :=
              fit model (fst (prepareTrainingData historicalData))
                        (snd (prepareTrainingData historicalData))]>
            (models w)))
    /\ modelType forecast = NEURAL_NETWORK
    /\ length (predictions forecast) = Z.to_nat days.
Proof.
  intros Hmodel Hwin.
  unfold generateNeuralNetworkForecast. rewrite Hmodel.
  destruct (prepareTrainingData historicalData) as [inputs outputs] eqn:Hprep.
  cbn [fst snd] in *.
  destruct (Nat.ltb_spec (length inputs) 10) as [Hlt|_]; [lia|].
  assert (Hne : historicalData <> []).
  { intros ->. unfold prepareTrainingData in Hprep.
    injection Hprep as <- _. cbn in Hwin. lia. }
  destruct historicalData as [|o rest]; [congruence|].
  match goal with
  | |- context [neuralPredictions ?w' ?m (o :: rest) ?st ?lf] =>
      destruct (neuralPredictions_ok w' m o rest st lf) as [points [-> Hlen]]
  end.
  cbn [rbind]. eexists; split; [reflexivity|].
  split; [reflexivity|].
  cbn [predictions]. now rewrite Hlen, countup_length.
Qed.

(** A result of type NEURAL_NETWORK leaves the neural forecaster only
    with at least 10 training windows. *)
Lemma generateNeuralNetworkForecast_neural (w w' : World LayersModel)
    (product : Product) (historicalData : list DemandObservation)
    (days : Z) (forecast : ForecastResult) :
  generateNeuralNetworkForecast w product historicalData days
  = (Ok forecast, w') ->
  (10 <= length (fst (prepareTrainingData historicalData)))%nat.
Proof.
  unfold generateNeuralNetworkForecast.
  destruct (models w !! categoryId product) as [model|]; [|discriminate].
  destruct (prepareTrainingData historicalData) as [inputs outputs].
  cbn [fst].
  destruct (Nat.ltb_spec (length inputs) 10) as [Hlt|Hge]; [|intros _; lia].
  destruct (generateStatisticalForecast_fails w (product_id product)
              historicalData days) as [e ->].
  discriminate.
Qed.

End Structure.

(* ===================================================================== *)
(** * Forecast orchestration *)
(* ===================================================================== *)

Section Orchestration.
Context {LayersModel : Type} {TF : TensorFlow LayersModel}.

Lemma history_has_180 (w : World LayersModel) (productId : string) :
  length (getHistoricalDemandData w productId 180) = 180%nat.
Proof. now rewrite getHistoricalDemandData_length. Qed.

Lemma history_has_170_windows (w : World LayersModel) (productId : string) :
  length (fst (prepareTrainingData (getHistoricalDemandData w productId 180)))
  = 170%nat.
Proof. now rewrite prepareTrainingData_length, history_has_180. Qed.

(** On a cache miss for a product that resolves, the forecast is that of
    the neural forecaster on the 180-day series, stored in the cache when
    there is one. *)
Lemma generateDemandForecast_miss (w : World LayersModel)
    (productId : string) (days : Z) (product : Product) :
  cacheStore w !! (productId, days) = None ->
  products w !! productId = Some product ->
  generateDemandForecast w productId days
  = match generateNeuralNetworkForecast w product
            (getHistoricalDemandData w productId 180) days with
    | (Ok forecast, w') =>
        (Ok forecast,
         setCache w' (<[(productId, days) := forecast]> (cacheStore w')))
    | (Err e, w') => (Err e, w')
    end.
Proof.
  intros Hcache Hproduct. unfold generateDemandForecast, forecastFromHistory.
  rewrite Hcache, Hproduct, history_has_180. reflexivity.
Qed.

(** Whatever series it is given, the choice of a forecaster returns a
    result of type NEURAL_NETWORK only for at least 30 observations and at
    least 10 training windows. *)
Lemma forecastFromHistory_neural (w w' : World LayersModel)
    (productId : string) (product : Product)
    (historicalData : list DemandObservation) (days : Z)
    (forecast : ForecastResult) :
  forecastFromHistory w productId product historicalData days
  = (Ok forecast, w') ->
  (30 <= length historicalData)%nat
  /\ (10 <= length (fst (prepareTrainingData historicalData)))%nat.
Proof.
  unfold forecastFromHistory.
  destruct (Nat.ltb_spec (length historicalData) 30) as [Hlt|Hge].
  - destruct (generateStatisticalForecast_fails w productId historicalData
                days) as [e ->].
    discriminate.
  - destruct (generateNeuralNetworkForecast w product historicalData days)
      as [[forecast'|e] w''] eqn:Hrun; [|discriminate].
    intros _. split; [exact Hge|].
    exact (generateNeuralNetworkForecast_neural _ _ _ _ _ _ Hrun).
Qed.

(** The selection between the two forecasters, on any series: what the
    neural forecaster returns as NEURAL_NETWORK was computed from at least
    10 windows, and with fewer windows its outcome is the outcome of the
    statistical forecaster. *)
Lemma neural_forecaster_selection (w : World LayersModel) (product : Product)
    (historicalData : list DemandObservation) (days : Z)
    (model : LayersModel) :
  models w !! categoryId product = Some model ->
  (forall forecast w',
      generateNeuralNetworkForecast w product historicalData days
      = (Ok forecast, w') ->
      (10 <= length (fst (prepareTrainingData historicalData)))%nat)
  /\ ((length (fst (prepareTrainingData historicalData)) < 10)%nat ->
      generateNeuralNetworkForecast w product historicalData days
      = (generateStatisticalForecast w (product_id product) historicalData
           days, w)).
Proof.
  intros Hmodel. split.
  - intros forecast w' Hrun.
    exact (generateNeuralNetworkForecast_neural _ _ _ _ _ _ Hrun).
  - intros Hshort. unfold generateNeuralNetworkForecast. rewrite Hmodel.
    destruct (prepareTrainingData historicalData) as [inputs outputs].
    cbn [fst] in Hshort.
    destruct (Nat.ltb_spec (length inputs) 10) as [_|Hge]; [reflexivity|lia].
Qed.

(** C10, as amended: the 180-day series has exactly 180 observations and
    170 training windows, so neither the sparse-data branch nor the window
    fallback is taken; on a cache miss, a forecast for a product that
    resolves and whose category has a model trains that model, returns a
    result of type NEURAL_NETWORK with one point per day and caches it; when
    the category has no model the operation fails with [ModelNotFound]. *)
Theorem forecast_of_resolved_product (w : World LayersModel)
    (productId : string) (days : Z) (product : Product) :
  products w !! productId = Some product ->
  cacheStore w !! (productId, days) = None ->
  let historicalData := getHistoricalDemandData w productId 180 in
  let training := prepareTrainingData historicalData in
  length historicalData = 180%nat
  /\ length (fst training) = 170%nat
  /\ match models w !! categoryId product with
     | Some model =>
         exists forecast w',
           generateDemandForecast w productId days = (Ok forecast, w')
           /\ modelType forecast = NEURAL_NETWORK
           /\ length (predictions forecast) = Z.to_nat days
           /\ models w' !! categoryId product
              = Some (fit model (fst training) (snd training))
           /\ cacheStore w' !! (productId, days) = Some forecast
     | None =>
         generateDemandForecast w productId days = (Err ModelNotFound, w)
     end.
Proof.
  intros Hproduct Hcache historicalData training.
  split; [apply history_has_180|].
  split; [apply history_has_170_windows|].
  rewrite (generateDemandForecast_miss _ _ _ _ Hcache Hproduct).
  fold historicalData.
  destruct (models w !! categoryId product) as [model|] eqn:Hmodel.
  - destruct (generateNeuralNetworkForecast_trains w product historicalData
                days model Hmodel) as [forecast [Hrun [Htype Hlen]]].
    { unfold historicalData. rewrite history_has_170_windows. lia. }
    rewrite Hrun. eexists; eexists; split; [reflexivity|].
    split; [exact Htype|]. split; [exact Hlen|].
    split.
    + cbn [models setCache setModels]. apply lookup_insert_eq.
    + cbn [cacheStore setCache]. apply lookup_insert_eq.
  - unfold generateNeuralNetworkForecast. now rewrite Hmodel.
Qed.

(** C4, as amended: for a product identifier that does not resolve, stock
    optimisation raises [ProductNotFound], and so does the demand forecast
    unless the cache holds a forecast under that identifier and horizon,
    which is then returned as it is. *)
Theorem unknown_product_is_reported (w : World LayersModel)
    (productId : string) :
  products w !! productId = None ->
  optimizeStockLevels w productId = (Err ProductNotFound, w)
  /\ (forall days,
         cacheStore w !! (productId, days) = None ->
         generateDemandForecast w productId days = (Err ProductNotFound, w))
  /\ (forall days cached,
         cacheStore w !! (productId, days) = Some cached ->
         generateDemandForecast w productId days = (Ok cached, w)).
Proof.
  intros Hunknown. repeat split.
  - unfold optimizeStockLevels. now rewrite Hunknown.
  - intros days Hmiss. unfold generateDemandForecast.
    now rewrite Hmiss, Hunknown.
  - intros days cached Hhit. unfold generateDemandForecast. now rewrite Hhit.
Qed.

End Orchestration.

(* ===================================================================== *)
(** * The statistical forecaster *)
(* ===================================================================== *)

Section Statistical.
Context {LayersModel : Type} {TF : TensorFlow LayersModel}.

Lemma mapM_ok {A B : Type} (f : A -> result B) (l : list A) :
  (forall a, exists b, f a = Ok b) ->
  exists bs, mapM f l = Ok bs /\ length bs = length l.
Proof.
  intros Hf. induction l as [|a l [bs [IH Hlen]]].
  - exists []; split; reflexivity.
  - destruct (Hf a) as [b Hb]. exists (b :: bs).
    cbn [mapM]. rewrite Hb, IH. cbn [rbind length]. now rewrite Hlen.
Qed.

Lemma getSeasonalFactor_ok (w : World LayersModel) (dayOffset : Z)
    (o : DemandObservation) (rest : list DemandObservation) :
  exists factor, getSeasonalFactor w dayOffset (o :: rest) = Ok factor.
Proof.
  unfold getSeasonalFactor.
  destruct (map demand (List.filter _ (o :: rest))) as [|x xs];
    [eexists; reflexivity|].
  destruct (ss_mean_cons x xs) as [m ->].
  change (map demand (o :: rest)) with (demand o :: map demand rest).
  destruct (ss_mean_cons (demand o) (map demand rest)) as [m' ->].
  eexists; reflexivity.
Qed.

Lemma statisticalPoint_ok (w : World LayersModel) (o : DemandObservation)
    (rest : list DemandObservation) (mean stdDev trend recentAverage : float)
    (i : Z) :
  exists point,
    statisticalPoint w (o :: rest) mean stdDev trend recentAverage i
    = Ok point.
Proof.
  unfold statisticalPoint.
  destruct (getSeasonalFactor_ok w i o rest) as [factor ->].
  eexists; reflexivity.
Qed.

Lemma lastN_week_nonempty (x : float) (xs : list float) :
  exists y ys, lastN (Nat.min 7 (length (x :: xs))) (x :: xs) = y :: ys.
Proof.
  destruct (lastN (Nat.min 7 (length (x :: xs))) (x :: xs)) as [|y ys] eqn:E.
  - apply (f_equal (@length float)) in E. unfold lastN in E.
    rewrite List.length_skipn in E. cbn [length] in E. lia.
  - eauto.
Qed.

(** On a non-empty history every statement before the [return] completes:
    one point per day of the horizon is pushed. *)
Lemma statisticalBody_ok (w : World LayersModel) (o : DemandObservation)
    (rest : list DemandObservation) (days : Z) :
  exists points scope,
    statisticalBody w (o :: rest) days = Ok (points, scope)
    /\ length points = Z.to_nat days.
Proof.
  unfold statisticalBody.
  change (map demand (o :: rest)) with (demand o :: map demand rest).
  destruct (ss_mean_cons (demand o) (map demand rest)) as [m ->].
  destruct (ss_standardDeviation_cons (demand o) (map demand rest))
    as [sd ->].
  cbn [rbind].
  destruct (lastN_week_nonempty (demand o) (map demand rest))
    as [y [ys ->]].
  destruct (ss_mean_cons y ys) as [ra ->].
  cbn [rbind].
  match goal with
  | |- context [mapM ?f ?l] =>
      destruct (mapM_ok f l) as [points [-> Hlen]]
  end.
  { intros i. apply statisticalPoint_ok. }
  cbn [rbind]. eexists; eexists; split; [reflexivity|].
  now rewrite Hlen, countup_length.
Qed.

(** C3: the statistical forecaster cannot return its result.  On any
    non-empty history and any horizon the prediction loop completes and
    the [return] statement then raises [ReferenceError]: it reads
    [confidence], which is a [const] of the loop body.  No [ForecastResult]
    whose accuracy could be compared with the confidence is produced. *)
Theorem statistical_forecast_raises_at_return (w : World LayersModel)
    (productId : string) (o : DemandObservation)
    (rest : list DemandObservation) (days : Z) :
  generateStatisticalForecast w productId (o :: rest) days
  = Err (ReferenceError "confidence").
Proof.
  unfold generateStatisticalForecast.
  destruct (statisticalBody_ok w o rest days) as [points [scope [Hbody _]]].
  rewrite Hbody. cbn [rbind].
  now rewrite (statisticalBody_scope _ _ _ _ _ Hbody).
Qed.


End Statistical.

(* ===================================================================== *)
(** * Arithmetic of integer-valued numbers

    Sums, differences and exact quotients of integers of magnitude below
    [2^53] are computed without rounding. *)
(* ===================================================================== *)

Lemma dg_log2 (p : positive) : dg p = Z.log2 (Zpos p) + 1.
Proof.
  unfold dg. induction p as [p IH|p IH|]; cbn [digits2_pos].
  - rewrite Pos2Z.inj_succ, IH.
    change (Zpos p~1) with (2 * Zpos p + 1).
    rewrite Z.log2_succ_double by lia. lia.
  - rewrite Pos2Z.inj_succ, IH.
    change (Zpos p~0) with (2 * Zpos p).
    rewrite Z.log2_double by lia. lia.
  - reflexivity.
Qed.

Lemma dg_pos (p : positive) : 1 <= dg p.
Proof. unfold dg; lia. Qed.

Lemma dg_mul_pow2 (n p : positive) (k : Z) :
  0 <= k -> Zpos p = Zpos n * 2 ^ k -> dg p = dg n + k.
Proof.
  intros Hk Hp. rewrite !dg_log2, Hp, Z.log2_mul_pow2 by lia. lia.
Qed.

Lemma dg_bound (n : positive) : Zpos n < 2 ^ 53 -> dg n <= 53.
Proof.
  intros H. rewrite dg_log2.
  assert (Z.log2 (Zpos n) < 53) by (apply Z.log2_lt_pow2; lia). lia.
Qed.

Lemma iter_pos_iter {A} (f : A -> A) (p : positive) (x : A) :
  SpecFloat.iter_pos f p x = Pos.iter f x p.
Proof.
  revert x. induction p as [p IH|p IH|]; intros x; cbn [SpecFloat.iter_pos Pos.iter].
  - rewrite !IH. now rewrite <- !Pos.iter_swap.
  - now rewrite !IH.
  - reflexivity.
Qed.

Lemma shr_1_even (r : positive) :
  shr_1 {| shr_m := 2 * Zpos r; shr_r := false; shr_s := false |}
  = {| shr_m := Zpos r; shr_r := false; shr_s := false |}.
Proof. reflexivity. Qed.

Lemma shr_exact (q : positive) : forall (M : positive),
  Pos.iter shr_1 {| shr_m := Zpos M * 2 ^ Zpos q; shr_r := false; shr_s := false |} q
  = {| shr_m := Zpos M; shr_r := false; shr_s := false |}.
Proof.
  induction q as [|q IH] using Pos.peano_ind; intros M.
  - cbn [Pos.iter]. rewrite Z.pow_1_r, Z.mul_comm. apply shr_1_even.
  - rewrite Pos.iter_succ, Pos2Z.inj_succ, Z.pow_succ_r by lia.
    replace (Zpos M * (2 * 2 ^ Zpos q)) with (Zpos (M~0) * 2 ^ Zpos q) by lia.
    rewrite IH. apply (shr_1_even M).
Qed.

Lemma shl_exact (m d : positive) :
  Zpos (Pos.iter xO m d) = Zpos m * 2 ^ Zpos d.
Proof.
  induction d as [|d IH] using Pos.peano_ind.
  - cbn [Pos.iter]. lia.
  - rewrite Pos.iter_succ, Pos2Z.inj_succ, Z.pow_succ_r by lia.
    change (Zpos (Pos.iter xO m d)~0) with (2 * Zpos (Pos.iter xO m d)).
    rewrite IH. lia.
Qed.

Lemma fexp_int (n : positive) : Zpos n < 2 ^ 53 -> fexp prec emax (dg n) = dg n - 53.
Proof.
  intros H. pose proof (dg_pos n). unfold fexp, SpecFloat.emin, prec, emax. lia.
Qed.

(** Rounding a mantissa that holds an integer below 2^53 exactly. *)
Lemma binary_round_aux_exact (s : bool) (m : Z) (e : Z) (n : positive) :
  Zpos n < 2 ^ 53 -> e <= dg n - 53 ->
  m = Zpos n * 2 ^ (- e) ->
  binary_round_aux prec emax s m e loc_Exact = intSF (if s then Zneg n else Zpos n).
Proof.
  intros Hn He Hm.
  pose proof (dg_pos n) as Hd1. pose proof (dg_bound n Hn) as Hd2.
  assert (He0 : e <= 0) by lia.
  assert (Hmpos : 0 < m) by (subst m; apply Z.mul_pos_pos; [lia|apply Z.pow_pos_nonneg; lia]).
  destruct m as [|p|p]; try lia.
  assert (Hdp : dg p = dg n - e) by (rewrite (dg_mul_pow2 n p (- e)); lia).
  set (M := Zpos n * 2 ^ (53 - dg n)).
  assert (HMpos : 0 < M) by (apply Z.mul_pos_pos; [lia|apply Z.pow_pos_nonneg; lia]).
  assert (HM : exists pm, M = Zpos pm) by (destruct M; try lia; eauto).
  destruct HM as [pm HM].
  assert (Hdm : dg pm = 53) by (rewrite (dg_mul_pow2 n pm (53 - dg n)); [lia|lia|now rewrite <- HM]).
  assert (Hfirst : shr_fexp prec emax (Zpos p) e loc_Exact
                   = ({| shr_m := Zpos pm; shr_r := false; shr_s := false |}, dg n - 53)).
  { unfold shr_fexp. cbn [Zdigits2 shr_record_of_loc]. fold (dg p).
    rewrite Hdp. replace (dg n - e + e) with (dg n) by lia.
    rewrite fexp_int by assumption.
    destruct (dg n - 53 - e) as [|k|k] eqn:Hk; try lia.
    - cbn [shr]. f_equal; [|lia]. f_equal. rewrite Hm, <- HM. unfold M. f_equal. f_equal. lia.
    - cbn [shr]. rewrite iter_pos_iter. f_equal; [|lia].
      replace (Zpos p) with (Zpos pm * 2 ^ Zpos k).
      + apply shr_exact.
      + rewrite Hm, <- HM. unfold M. rewrite <- Z.mul_assoc, <- Z.pow_add_r by lia.
        f_equal. f_equal. lia. }
  unfold binary_round_aux. rewrite Hfirst.
  cbn [shr_m loc_of_shr_record round_nearest_even].
  assert (Hsecond : shr_fexp prec emax (Zpos pm) (dg n - 53) loc_Exact
                   = ({| shr_m := Zpos pm; shr_r := false; shr_s := false |}, dg n - 53)).
  { unfold shr_fexp. cbn [Zdigits2 shr_record_of_loc]. fold (dg pm).
    rewrite Hdm. replace (53 + (dg n - 53)) with (dg n) by lia.
    rewrite fexp_int by assumption. rewrite Z.sub_diag. reflexivity. }
  rewrite Hsecond. cbn [shr_m].
  replace (dg n - 53 <=? emax - prec) with true by (symmetry; apply Z.leb_le; unfold emax, prec; lia).
  destruct s; cbn [intSF]; fold M; rewrite HM; reflexivity.
Qed.

Lemma binary_round_exact (s : bool) (p : positive) (e : Z) (n : positive) :
  Zpos n < 2 ^ 53 -> e <= 0 ->
  Zpos p = Zpos n * 2 ^ (- e) ->
  binary_round prec emax s p e = intSF (signedZ s n).
Proof.
  intros Hn He Hp.
  pose proof (dg_pos n) as Hd1. pose proof (dg_bound n Hn) as Hd2.
  unfold binary_round. fold (dg p).
  rewrite (dg_mul_pow2 n p (- e)) by (lia || assumption).
  replace (dg n + - e + e) with (dg n) by lia.
  rewrite fexp_int by assumption.
  unfold shl_align.
  destruct (dg n - 53 - e) as [|k|k] eqn:Hk.
  - apply binary_round_aux_exact; [assumption|lia|assumption].
  - apply binary_round_aux_exact; [assumption|lia|assumption].
  - apply binary_round_aux_exact; [assumption|lia|].
    rewrite shl_exact, Hp, <- Z.mul_assoc, <- Z.pow_add_r by lia.
    f_equal. f_equal. lia.
Qed.

Lemma binary_normalize_exact (z e : Z) (v : Z) :
  Z.abs v < 2 ^ 53 -> e <= 0 -> z = v * 2 ^ (- e) ->
  binary_normalize prec emax z e false = intSF v.
Proof.
  intros Hv He Hz.
  assert (Hpow : 0 < 2 ^ (- e)) by (apply Z.pow_pos_nonneg; lia).
  destruct v as [|n|n].
  - subst z. reflexivity.
  - destruct z as [|p|p]; try lia.
    cbn [binary_normalize]. apply (binary_round_exact false p e n); [lia|lia|lia].
  - destruct z as [|p|p]; try lia.
    cbn [binary_normalize]. apply (binary_round_exact true p e n); [lia|lia|lia].
Qed.

Lemma intSF_valid (v : Z) : Z.abs v < 2 ^ 53 -> valid_binary (intSF v) = true.
Proof.
  intros Hv.
  assert (H : forall (s : bool) n, Zpos n < 2 ^ 53 ->
            bounded prec emax (Z.to_pos (Zpos n * 2 ^ (53 - dg n))) (dg n - 53) = true).
  { intros s n Hn.
    pose proof (dg_pos n) as Hd1. pose proof (dg_bound n Hn) as Hd2.
    set (M := Zpos n * 2 ^ (53 - dg n)).
    assert (HMpos : 0 < M) by (apply Z.mul_pos_pos; [lia|apply Z.pow_pos_nonneg; lia]).
    destruct M as [|pm|pm] eqn:HM; try lia.
    assert (Hdm : dg pm = 53) by (rewrite (dg_mul_pow2 n pm (53 - dg n)); [lia|lia|now rewrite <- HM]).
    cbn [Z.to_pos]. unfold bounded, canonical_mantissa. fold (dg pm). rewrite Hdm.
    replace (53 + (dg n - 53)) with (dg n) by lia.
    rewrite fexp_int by assumption.
    rewrite Z.eqb_refl. cbn [andb]. apply Z.leb_le. unfold emax, prec. lia. }
  destruct v as [|n|n]; [reflexivity| |]; cbn [intSF SpecFloat.valid_binary]; apply (H false); lia.
Qed.

Lemma Prim2SF_Z2F (v : Z) : Z.abs v < 2 ^ 53 -> Prim2SF (Z2F v) = intSF v.
Proof.
  intros Hv. unfold Z2F.
  rewrite (binary_normalize_exact v 0 v) by (try assumption; lia).
  apply Prim2SF_SF2Prim, intSF_valid, Hv.
Qed.

(** The aligned mantissa of an integer. *)
Lemma intSF_finite (s : bool) (n : positive) :
  Zpos n < 2 ^ 53 ->
  exists m e, intSF (signedZ s n) = S754_finite s m e
              /\ Zpos m = Zpos n * 2 ^ (- e) /\ -52 <= e <= 0.
Proof.
  intros Hn.
  pose proof (dg_pos n) as Hd1. pose proof (dg_bound n Hn) as Hd2.
  exists (Z.to_pos (Zpos n * 2 ^ (53 - dg n))), (dg n - 53).
  split; [destruct s; reflexivity|]. split; [|lia].
  rewrite Z2Pos.id by (apply Z.mul_pos_pos; [lia|apply Z.pow_pos_nonneg; lia]).
  f_equal. f_equal. lia.
Qed.

Lemma shl_align_fst (m : positive) (e ez : Z) :
  ez <= e -> Zpos (fst (shl_align m e ez)) = Zpos m * 2 ^ (e - ez).
Proof.
  intros H. unfold shl_align.
  destruct (ez - e) as [|k|k] eqn:Hk; cbn [fst]; try lia.
  - replace (e - ez) with 0 by lia. lia.
  - rewrite shl_exact. f_equal. f_equal. lia.
Qed.

Lemma cond_Zopp_signed (s : bool) (n : positive) (k : Z) :
  cond_Zopp s (Zpos n * k) = signedZ s n * k.
Proof. destruct s; cbn [cond_Zopp signedZ]; lia. Qed.

Lemma aligned_value (s : bool) (n m : positive) (e ez : Z) :
  Zpos m = Zpos n * 2 ^ (- e) -> ez <= e -> e <= 0 ->
  cond_Zopp s (Zpos (fst (shl_align m e ez))) = signedZ s n * 2 ^ (- ez).
Proof.
  intros Hm Hez He. rewrite shl_align_fst, Hm by assumption.
  rewrite <- Z.mul_assoc, <- Z.pow_add_r by lia.
  replace (- e + (e - ez)) with (- ez) by lia.
  apply cond_Zopp_signed.
Qed.

Lemma Z_signed (v : Z) : v <> 0 -> exists s n, v = signedZ s n /\ Zpos n = Z.abs v.
Proof.
  destruct v as [|n|n]; intros H; [congruence| |].
  - exists false, n; split; reflexivity.
  - exists true, n; split; reflexivity.
Qed.

Lemma SFadd_int (x y : Z) :
  Z.abs x < 2 ^ 53 -> Z.abs y < 2 ^ 53 -> Z.abs (x + y) < 2 ^ 53 ->
  SFadd prec emax (intSF x) (intSF y) = intSF (x + y).
Proof.
  intros Hx Hy Hxy.
  destruct (Z.eq_dec x 0) as [->|Hx0].
  { destruct y; reflexivity. }
  destruct (Z.eq_dec y 0) as [->|Hy0].
  { rewrite Z.add_0_r. destruct x; reflexivity. }
  destruct (Z_signed x Hx0) as [sx [nx [-> Hnx]]].
  destruct (Z_signed y Hy0) as [sy [ny [-> Hny]]].
  destruct (intSF_finite sx nx) as [mx [ex [-> [Hmx Hex]]]]; [lia|].
  destruct (intSF_finite sy ny) as [my [ey [-> [Hmy Hey]]]]; [lia|].
  cbn [SFadd].
  rewrite (aligned_value sx nx mx ex) by (assumption || lia).
  rewrite (aligned_value sy ny my ey) by (assumption || lia).
  rewrite <- Z.mul_add_distr_r.
  apply binary_normalize_exact; [assumption|lia|reflexivity].
Qed.

Lemma SFsub_int (x y : Z) :
  Z.abs x < 2 ^ 53 -> Z.abs y < 2 ^ 53 -> Z.abs (x - y) < 2 ^ 53 ->
  SFsub prec emax (intSF x) (intSF y) = intSF (x - y).
Proof.
  intros Hx Hy Hxy.
  destruct (Z.eq_dec y 0) as [->|Hy0].
  { rewrite Z.sub_0_r. destruct x; reflexivity. }
  destruct (Z.eq_dec x 0) as [->|Hx0].
  { destruct y; reflexivity. }
  destruct (Z_signed x Hx0) as [sx [nx [-> Hnx]]].
  destruct (Z_signed y Hy0) as [sy [ny [-> Hny]]].
  destruct (intSF_finite sx nx) as [mx [ex [-> [Hmx Hex]]]]; [lia|].
  destruct (intSF_finite sy ny) as [my [ey [-> [Hmy Hey]]]]; [lia|].
  cbn [SFsub].
  rewrite (aligned_value sx nx mx ex) by (assumption || lia).
  rewrite (aligned_value sy ny my ey) by (assumption || lia).
  rewrite <- Z.mul_sub_distr_r.
  apply binary_normalize_exact; [assumption|lia|reflexivity].
Qed.

Lemma Z2F_add (x y : Z) :
  Z.abs x < 2 ^ 53 -> Z.abs y < 2 ^ 53 -> Z.abs (x + y) < 2 ^ 53 ->
  (Z2F x + Z2F y)%float = Z2F (x + y).
Proof.
  intros Hx Hy Hxy. apply Prim2SF_inj.
  rewrite add_spec, !Prim2SF_Z2F by assumption.
  now apply SFadd_int.
Qed.

Lemma Z2F_sub (x y : Z) :
  Z.abs x < 2 ^ 53 -> Z.abs y < 2 ^ 53 -> Z.abs (x - y) < 2 ^ 53 ->
  (Z2F x - Z2F y)%float = Z2F (x - y).
Proof.
  intros Hx Hy Hxy. apply Prim2SF_inj.
  rewrite sub_spec, !Prim2SF_Z2F by assumption.
  now apply SFsub_int.
Qed.

Lemma intSF_pos (n : positive) :
  intSF (Zpos n)
  = S754_finite false (Z.to_pos (Zpos n * 2 ^ (53 - dg n))) (dg n - 53).
Proof. reflexivity. Qed.

Lemma mantissa_53 (n : positive) :
  Zpos n < 2 ^ 53 ->
  Zpos (Z.to_pos (Zpos n * 2 ^ (53 - dg n))) = Zpos n * 2 ^ (53 - dg n)
  /\ dg (Z.to_pos (Zpos n * 2 ^ (53 - dg n))) = 53.
Proof.
  intros Hn.
  pose proof (dg_pos n) as Hd1. pose proof (dg_bound n Hn) as Hd2.
  assert (Hid : Zpos (Z.to_pos (Zpos n * 2 ^ (53 - dg n)))
                = Zpos n * 2 ^ (53 - dg n)).
  { apply Z2Pos.id, Z.mul_pos_pos; [lia|apply Z.pow_pos_nonneg; lia]. }
  split; [exact Hid|].
  rewrite (dg_mul_pow2 n _ (53 - dg n)); [lia|lia|exact Hid].
Qed.

Lemma dg_mul (b c a : positive) :
  Zpos a = Zpos b * Zpos c -> dg b <= dg a <= dg b + dg c.
Proof.
  intros Ha. rewrite !dg_log2, Ha.
  pose proof (Z.log2_mul_above (Zpos b) (Zpos c)).
  pose proof (Z.log2_mul_below (Zpos b) (Zpos c)).
  pose proof (Z.log2_nonneg (Zpos c)). lia.
Qed.

Lemma SFdiv_int (b c : positive) :
  Zpos b * Zpos c < 2 ^ 53 ->
  SFdiv prec emax (intSF (Zpos b * Zpos c)) (intSF (Zpos b)) = intSF (Zpos c).
Proof.
  intros Hbc.
  assert (Hb : Zpos b < 2 ^ 53)
    by (assert (Zpos b <= Zpos b * Zpos c) by nia; lia).
  assert (Hc : Zpos c < 2 ^ 53)
    by (assert (1 * Zpos c <= Zpos b * Zpos c)
          by (apply Z.mul_le_mono_nonneg_r; lia); lia).
  change (Zpos b * Zpos c) with (Zpos (b * c)) in *.
  set (a := (b * c)%positive) in *.
  assert (Ha : Zpos a = Zpos b * Zpos c) by reflexivity.
  destruct (mantissa_53 a Hbc) as [Hma Hda].
  destruct (mantissa_53 b Hb) as [Hmb Hdb].
  pose proof (dg_mul b c a Ha) as Hdg.
  pose proof (dg_pos b). pose proof (dg_pos c). pose proof (dg_bound a Hbc).
  rewrite !intSF_pos.
  set (ma := Z.to_pos (Zpos a * 2 ^ (53 - dg a))) in *.
  set (mb := Z.to_pos (Zpos b * 2 ^ (53 - dg b))) in *.
  cbn [SFdiv xorb]. unfold SFdiv_core_binary. cbn [Zdigits2].
  fold (dg ma) (dg mb). rewrite Hda, Hdb.
  replace (fexp prec emax (53 + (dg a - 53) - (53 + (dg b - 53))))
    with (dg a - dg b - 53) by (unfold fexp, SpecFloat.emin, prec, emax; lia).
  replace (Z.min (dg a - dg b - 53) (dg a - 53 - (dg b - 53)))
    with (dg a - dg b - 53) by lia.
  replace (dg a - 53 - (dg b - 53) - (dg a - dg b - 53)) with 53 by lia.
  rewrite Z.shiftl_mul_pow2 by lia.
  assert (Hquot : Zpos ma * 2 ^ 53
                  = Zpos c * 2 ^ (53 + dg b - dg a) * Zpos mb).
  { rewrite Hma, Hmb, Ha.
    replace (2 ^ 53) with (2 ^ (53 + dg b - dg a) * 2 ^ (dg a - dg b))
      by (rewrite <- Z.pow_add_r by lia; f_equal; lia).
    replace (2 ^ (53 - dg b)) with (2 ^ (53 - dg a) * 2 ^ (dg a - dg b))
      by (rewrite <- Z.pow_add_r by lia; f_equal; lia).
    ring. }
  destruct (Z.div_eucl (Zpos ma * 2 ^ 53) (Zpos mb)) as [q r] eqn:Hdiv.
  assert (Hq : q = Zpos c * 2 ^ (53 + dg b - dg a)).
  { change q with (fst (q, r)). rewrite <- Hdiv.
    change (fst (Z.div_eucl ?x ?y)) with (x / y).
    rewrite Hquot. apply Z.div_mul. lia. }
  assert (Hr : r = 0).
  { change r with (snd (q, r)). rewrite <- Hdiv.
    change (snd (Z.div_eucl ?x ?y)) with (x mod y).
    rewrite Hquot. apply Z.mod_mul. lia. }
  subst r.
  replace (new_location (Zpos mb) 0) with loc_Exact
    by (unfold new_location, new_location_even, new_location_odd;
        destruct (Z.even (Zpos mb)); reflexivity).
  apply (binary_round_aux_exact false q (dg a - dg b - 53) c); [assumption|lia|].
  rewrite Hq. f_equal. f_equal. lia.
Qed.

Lemma Z2F_div (b c : Z) :
  0 < b < 2 ^ 53 -> 0 <= c -> b * c < 2 ^ 53 ->
  (Z2F (b * c) / Z2F b)%float = Z2F c.
Proof.
  intros Hb Hc Hbc.
  assert (Z.abs b < 2 ^ 53) by lia.
  assert (Z.abs c < 2 ^ 53)
    by (assert (1 * c <= b * c) by (apply Z.mul_le_mono_nonneg_r; lia); lia).
  apply Prim2SF_inj.
  rewrite div_spec, !Prim2SF_Z2F by (assumption || lia).
  destruct b as [|b|b]; try lia.
  destruct c as [|c|c]; try lia.
  - rewrite Z.mul_0_r. reflexivity.
  - now apply SFdiv_int.
Qed.

Lemma Z2F_zero : Z2F 0 = 0%float.
Proof. reflexivity. Qed.

Lemma Z2F_abs (v : Z) :
  Z.abs v < 2 ^ 53 -> PrimFloat.abs (Z2F v) = Z2F (Z.abs v).
Proof.
  intros Hv. apply Prim2SF_inj.
  rewrite abs_spec, !Prim2SF_Z2F by lia.
  destruct v; reflexivity.
Qed.

Lemma Z2F_is_nan (v : Z) :
  Z.abs v < 2 ^ 53 -> PrimFloat.is_nan (Z2F v) = false.
Proof.
  intros Hv. unfold PrimFloat.is_nan.
  rewrite FloatAxioms.eqb_spec, Prim2SF_Z2F by assumption.
  destruct v as [|n|n]; [reflexivity| |];
    unfold SFeqb; cbn [intSF SFcompare];
    rewrite Z.compare_refl;
    change (Pos.compare_cont Eq ?a ?b) with (Pos.compare a b);
    rewrite Pos.compare_refl; reflexivity.
Qed.

Lemma Z2F_is_zero (v : Z) :
  Z.abs v < 2 ^ 53 -> PrimFloat.is_zero (Z2F v) = (v =? 0).
Proof.
  intros Hv. unfold PrimFloat.is_zero.
  rewrite FloatAxioms.eqb_spec, Prim2SF_Z2F by assumption.
  destruct v; reflexivity.
Qed.

Lemma orZero_Z2F (v : Z) :
  Z.abs v < 2 ^ 53 -> orZero (Some (Z2F v)) = Z2F v.
Proof.
  intros Hv. unfold orZero.
  rewrite Z2F_is_zero, Z2F_is_nan by assumption.
  destruct (Z.eqb_spec v 0) as [->|_]; reflexivity.
Qed.


(* ===================================================================== *)
(** * Statistics of a constant series *)
(* ===================================================================== *)

Lemma Z2F_cancel (x y : Z) :
  Z.abs x < 2 ^ 53 -> Z.abs y < 2 ^ 53 -> Z.abs (x + y) < 2 ^ 53 ->
  (0 + (Z2F x - Z2F (x + y) + Z2F y))%float = 0%float.
Proof.
  intros Hx Hy Hxy.
  rewrite Z2F_sub, Z2F_add by (assumption || lia).
  replace (x - (x + y) + y) with 0 by lia. reflexivity.
Qed.

Lemma sumLoop_constant (c : Z) (k : nat) : forall j : Z,
  0 <= c -> 0 <= j -> (j + Z.of_nat k) * c < 2 ^ 53 ->
  sumLoop (repeat (Z2F c) k) (Z2F (j * c)) 0 = Z2F ((j + Z.of_nat k) * c).
Proof.
  induction k as [|k IH]; intros j Hc Hj Hb.
  - cbn [repeat sumLoop]. rewrite Z.add_0_r in *.
    rewrite <- Z2F_zero, Z2F_add by (rewrite ?Z.add_0_r; lia).
    now rewrite Z.add_0_r.
  - cbn [repeat sumLoop].
    assert (Hjc : 0 <= j * c) by nia.
    assert (Hstep : j * c + c <= (j + Z.of_nat (S k)) * c) by nia.
    rewrite (Z2F_add (j * c) c) by lia.
    replace (if (PrimFloat.abs (Z2F c) <=? PrimFloat.abs (Z2F (j * c)))%float
             then (0 + (Z2F (j * c) - Z2F (j * c + c) + Z2F c))%float
             else (0 + (Z2F c - Z2F (j * c + c) + Z2F (j * c)))%float)
      with 0%float.
    + replace (j * c + c) with ((j + 1) * c) by lia.
      rewrite IH by lia. f_equal. lia.
    + destruct (_ <=? _)%float.
      * symmetry. apply Z2F_cancel; lia.
      * symmetry. replace (j * c + c) with (c + j * c) by lia.
        apply Z2F_cancel; lia.
Qed.

Lemma ss_mean_constant (c : Z) (n : nat) :
  0 <= c -> Z.of_nat (S n) * (c + 1) < 2 ^ 53 ->
  ss_mean (repeat (Z2F c) (S n)) = Ok (Z2F c).
Proof.
  intros Hc Hb.
  assert (Hn : Z.of_nat (S n) < 2 ^ 53) by nia.
  assert (Hnc : Z.of_nat (S n) * c < 2 ^ 53) by nia.
  cbn [repeat ss_mean ss_sum]. f_equal.
  change (length (Z2F c :: repeat (Z2F c) n)) with (S (length (repeat (Z2F c) n))).
  rewrite repeat_length.
  pose proof (sumLoop_constant c n 1 Hc) as Hsum.
  rewrite Z.mul_1_l in Hsum. rewrite Hsum by lia.
  unfold N2F. replace (1 + Z.of_nat n) with (Z.of_nat (S n)) by lia.
  apply Z2F_div; lia.
Qed.

Lemma squares_constant (c : Z) (n : nat) :
  Z.abs c < 2 ^ 53 ->
  fold_left (fun sum x => let tempValue := (x - Z2F c)%float in
                          (sum + tempValue * tempValue)%float)
            (repeat (Z2F c) n) 0%float = 0%float.
Proof.
  intros Hc. induction n as [|n IH]; [reflexivity|].
  cbn [repeat fold_left]. cbv zeta. rewrite Z2F_sub by (rewrite ?Z.sub_diag; lia).
  rewrite Z.sub_diag. exact IH.
Qed.

Lemma ss_standardDeviation_constant (c : Z) (n : nat) :
  0 <= c -> Z.of_nat (S n) * (c + 1) < 2 ^ 53 ->
  ss_standardDeviation (repeat (Z2F c) (S n)) = Ok 0%float.
Proof.
  intros Hc Hb.
  assert (Hn : Z.of_nat (S n) < 2 ^ 53) by nia.
  assert (Hc53 : Z.abs c < 2 ^ 53) by nia.
  destruct n as [|n]; [reflexivity|].
  unfold ss_standardDeviation, ss_variance, sumSquaredDeviations.
  change (repeat (Z2F c) (S (S n))) with (Z2F c :: Z2F c :: repeat (Z2F c) n).
  change (Z2F c :: Z2F c :: repeat (Z2F c) n) with (repeat (Z2F c) (S (S n))).
  cbn [repeat]. change (Z2F c :: Z2F c :: repeat (Z2F c) n) with (repeat (Z2F c) (S (S n))).
  rewrite ss_mean_constant by assumption. cbn [rbind].
  rewrite squares_constant by assumption. cbn [rbind].
  rewrite repeat_length. unfold N2F.
  replace 0%float with (Z2F (Z.of_nat (S (S n)) * 0)) at 1 by (rewrite Z.mul_0_r; reflexivity).
  rewrite Z2F_div by lia. reflexivity.
Qed.

Lemma constant_demands (c : float) (historicalData : list DemandObservation) :
  Forall (fun o => demand o = c) historicalData ->
  map demand historicalData = repeat c (length historicalData).
Proof.
  induction 1 as [|o rest Ho _ IH]; [reflexivity|].
  cbn [map length repeat]. now rewrite Ho, IH.
Qed.

Lemma slice_week_nonempty {A} (l : list A) (i : nat) :
  (7 <= i < length l)%nat -> exists y ys, slice (i - 7) i l = y :: ys.
Proof.
  intros Hi. destruct (slice (i - 7) i l) as [|y ys] eqn:E; [|eauto].
  apply (f_equal (@length A)) in E. unfold slice in E.
  rewrite List.length_firstn, List.length_skipn in E. cbn [length] in E. lia.
Qed.

Lemma mapM_all_none {A B} (f : A -> result (option B)) (l : list A) :
  (forall a, In a l -> f a = Ok None) ->
  exists flagged, mapM f l = Ok flagged /\ omap (fun o => o) flagged = [].
Proof.
  induction l as [|a l IH]; intros Hf.
  - exists []; split; reflexivity.
  - destruct IH as [flagged [Hm Ho]]; [intros b Hb; apply Hf; now right|].
    exists (None :: flagged). cbn [mapM]. rewrite (Hf a) by now left.
    cbn [rbind]. rewrite Hm. split; [reflexivity|exact Ho].
Qed.

Lemma anomalyAt_no_deviation (historicalData : list DemandObservation)
    (demands : list float) (i : nat) :
  (7 <= i < length demands)%nat ->
  anomalyAt historicalData demands 0%float i = Ok None.
Proof.
  intros Hi. unfold anomalyAt.
  destruct (slice_week_nonempty demands i Hi) as [y [ys ->]].
  destruct (ss_mean_cons y ys) as [m ->]. reflexivity.
Qed.


(* ===================================================================== *)
(** * Order of numbers around the confidence bounds *)
(* ===================================================================== *)

Lemma SF_floor : Prim2SF 0.3 = sfFloor.
Proof. vm_compute. reflexivity. Qed.
Lemma SF_cap : Prim2SF 0.95 = sfCap.
Proof. vm_compute. reflexivity. Qed.

Lemma SFltb_pos (m1 m2 : positive) (e1 e2 : Z) :
  SFltb (S754_finite false m1 e1) (S754_finite false m2 e2)
  = match Z.compare e1 e2 with
    | Lt => true
    | Gt => false
    | Eq => match Pos.compare m1 m2 with Lt => true | _ => false end
    end.
Proof. unfold SFltb. cbn [SFcompare]. unfold Pos.compare. now destruct (e1 ?= e2). Qed.

Lemma SFeqb_finite_refl (s : bool) (m : positive) (e : Z) :
  SFeqb (S754_finite s m e) (S754_finite s m e) = true.
Proof.
  unfold SFeqb. cbn [SFcompare]. rewrite Z.compare_refl.
  change (Pos.compare_cont Eq m m) with (Pos.compare m m).
  rewrite Pos.compare_refl. now destruct s.
Qed.

Lemma sfBand_total (x : spec_float) : sfBand x.
Proof.
  destruct x as [s|s| |s m e].
  - apply sfBand_low; now destruct s.
  - destruct s; [apply sfBand_low|apply sfBand_high]; reflexivity.
  - apply sfBand_nan; reflexivity.
  - destruct s; [apply sfBand_low; try reflexivity; apply SFeqb_finite_refl|].
    pose proof (SFeqb_finite_refl false m e) as Hrefl.
    unfold sfFloor, sfCap.
    pose proof (SFltb_pos m 5404319552844595 e (-54)) as Ha.
    pose proof (SFltb_pos 5404319552844595 m (-54) e) as Hb.
    pose proof (SFltb_pos m 8556839292003942 e (-53)) as Hc.
    pose proof (SFltb_pos 8556839292003942 m (-53) e) as Hd.
    rewrite (Pos.compare_antisym m 5404319552844595) in Hb.
    rewrite (Pos.compare_antisym m 8556839292003942) in Hd.
    rewrite (Z.compare_antisym e (-54)) in Hb.
    rewrite (Z.compare_antisym e (-53)) in Hd.
    pose proof (Z.compare_spec e (-54)) as Z3.
    pose proof (Z.compare_spec e (-53)) as Z95.
    pose proof (Pos.compare_spec m 5404319552844595) as P3.
    pose proof (Pos.compare_spec m 8556839292003942) as P95.
    destruct Z3 as [Z3|Z3|Z3]; destruct Z95 as [Z95|Z95|Z95];
      try (exfalso; lia);
      destruct P3 as [P3|P3|P3]; destruct P95 as [P95|P95|P95];
      first [ apply sfBand_low; assumption
            | apply sfBand_mid; assumption
            | apply sfBand_high; assumption
            | apply sfBand_floor; rewrite Z3, P3; reflexivity
            | apply sfBand_cap; rewrite Z95, P95; reflexivity ].
Qed.

Lemma is_nan_SF (v : float) :
  PrimFloat.is_nan v = negb (SFeqb (Prim2SF v) (Prim2SF v)).
Proof. unfold PrimFloat.is_nan. now rewrite FloatAxioms.eqb_spec. Qed.

Lemma comparisons_SF (v : float) (n a b c d : bool) :
  SFeqb (Prim2SF v) (Prim2SF v) = negb n ->
  SFltb (Prim2SF v) sfFloor = a -> SFltb sfFloor (Prim2SF v) = b ->
  SFltb (Prim2SF v) sfCap = c -> SFltb sfCap (Prim2SF v) = d ->
  comparisons v n a b c d.
Proof.
  intros Hn Ha Hb Hc Hd. split.
  - rewrite is_nan_SF, Hn. apply negb_involutive.
  - now rewrite ltb_spec, SF_floor.
  - now rewrite ltb_spec, SF_floor.
  - now rewrite ltb_spec, SF_cap.
  - now rewrite ltb_spec, SF_cap.
Qed.

Lemma band_total (v : float) : band v.
Proof.
  destruct (sfBand_total (Prim2SF v)) as [Hn Ha Hb Hc Hd|Hn Ha Hb Hc Hd|Hv
                                         |Hn Ha Hb Hc Hd|Hv|Hn Ha Hb Hc Hd].
  - apply band_nan. now apply comparisons_SF.
  - apply band_low. now apply comparisons_SF.
  - apply band_floor, Prim2SF_inj. now rewrite SF_floor.
  - apply band_mid. now apply comparisons_SF.
  - apply band_cap, Prim2SF_inj. now rewrite SF_cap.
  - apply band_high. now apply comparisons_SF.
Qed.

Lemma Math_max_floor (v : float) (n a b : bool) :
  PrimFloat.is_nan v = n -> (v <? 0.3)%float = a -> (0.3 <? v)%float = b ->
  Math_max 0.3 v
  = if n then nan else if b then v else if a then 0.3%float else 0.3%float.
Proof. intros <- <- <-. reflexivity. Qed.

Lemma Math_min_cap (v : float) (n c d : bool) :
  PrimFloat.is_nan v = n -> (v <? 0.95)%float = c -> (0.95 <? v)%float = d ->
  Math_min 0.95 v
  = if n then nan else if d then 0.95%float else if c then v else v.
Proof. intros <- <- <-. reflexivity. Qed.

(** Flooring at 0.3 and capping at 0.95 can be done in either order. *)
Lemma floor_cap_commute (v : float) :
  Math_max 0.3 (Math_min 0.95 v) = Math_min 0.95 (Math_max 0.3 v).
Proof.
  destruct (band_total v) as [ [Hn Ha Hb Hc Hd] | [Hn Ha Hb Hc Hd] | ->
                             | [Hn Ha Hb Hc Hd] | -> | [Hn Ha Hb Hc Hd] ];
    try (vm_compute; reflexivity);
    repeat first [ rewrite (Math_min_cap v _ _ _ Hn Hc Hd)
                 | rewrite (Math_max_floor v _ _ _ Hn Ha Hb)
                 | progress cbv iota ];
    vm_compute; reflexivity.
Qed.

(* ===================================================================== *)
(** * Anomaly detection on a constant series *)
(* ===================================================================== *)

(** C9: on a series whose days all have the same demand [c], an integer as
    the builder produces them, the detector returns no anomaly: the
    standard deviation is exactly 0 and every z-score is taken as 0.  The
    total demand of the series is to be a safe integer. *)
Theorem constant_series_has_no_anomaly (productId : string) (c : Z)
    (historicalData : list DemandObservation) :
  0 <= c ->
  Z.of_nat (length historicalData) * (c + 1) < 2 ^ 53 ->
  Forall (fun o => demand o = Z2F c) historicalData ->
  detectInSeries productId historicalData
  = Ok {| a_productId := productId; anomalies := [] |}.
Proof.
  intros Hc Hsafe Hconst. unfold detectInSeries.
  rewrite List.length_map.
  destruct (Nat.ltb_spec (length historicalData) 14) as [|Hlen]; [reflexivity|].
  rewrite (constant_demands _ _ Hconst).
  destruct (length historicalData) as [|n] eqn:Hn; [lia|].
  rewrite ss_mean_constant, ss_standardDeviation_constant by assumption.
  cbn [rbind].
  destruct (mapM_all_none
              (anomalyAt historicalData (repeat (Z2F c) (S n)) 0%float)
              (seq 7 (S n - 7))) as [flagged [Hrun Hnone]].
  { intros i Hi. apply in_seq in Hi.
    apply anomalyAt_no_deviation. rewrite repeat_length. lia. }
  rewrite Hrun. cbn [rbind]. now rewrite Hnone.
Qed.

Lemma constant_series_has_no_anomaly_witness :
  0 <= 5
  /\ Z.of_nat (length (seriesOf (fun _ => Z2F 5) 90)) * (5 + 1) < 2 ^ 53
  /\ Forall (fun o => demand o = Z2F 5) (seriesOf (fun _ => Z2F 5) 90)
  /\ detectInSeries "widget" (seriesOf (fun _ => Z2F 5) 90)
     = Ok {| a_productId := "widget"; anomalies := [] |}.
Proof.
  assert (H1 : 0 <= 5) by lia.
  assert (H2 : Z.of_nat (length (seriesOf (fun _ => Z2F 5) 90)) * (5 + 1)
               < 2 ^ 53) by (vm_compute; reflexivity).
  assert (H3 : Forall (fun o => demand o = Z2F 5)
                 (seriesOf (fun _ => Z2F 5) 90)).
  { apply List.Forall_forall. intros o Hin. unfold seriesOf in Hin.
    apply in_map_iff in Hin. destruct Hin as [k [<- _]]. reflexivity. }
  split; [exact H1|]. split; [exact H2|]. split; [exact H3|].
  exact (constant_series_has_no_anomaly "widget" 5 _ H1 H2 H3).
Defined.

(* ===================================================================== *)
(** * Confidence of a neural prediction *)
(* ===================================================================== *)

(** C6, as amended: on a non-empty history the confidence of a prediction
    is [1 - (|prediction - mean| / stdDev) * 0.1], floored at 0.3 and
    capped at 0.95; the deviation is not bounded by 1 before it is scaled,
    and it is taken as 0 when the standard deviation is 0. *)
Theorem prediction_confidence_is_scaled_deviation (prediction : float)
    (o : DemandObservation) (rest : list DemandObservation) :
  exists mean stdDev,
    ss_mean (map demand (o :: rest)) = Ok mean
    /\ ss_standardDeviation (map demand (o :: rest)) = Ok stdDev
    /\ calculatePredictionConfidence prediction (o :: rest)
       = Ok (amendedPredictionConfidence prediction mean stdDev).
Proof.
  change (map demand (o :: rest)) with (demand o :: map demand rest).
  destruct (ss_mean_cons (demand o) (map demand rest)) as [mean Hmean].
  destruct (ss_standardDeviation_cons (demand o) (map demand rest))
    as [stdDev Hsd].
  exists mean, stdDev. split; [exact Hmean|]. split; [exact Hsd|].
  unfold calculatePredictionConfidence, amendedPredictionConfidence.
  change (map demand (o :: rest)) with (demand o :: map demand rest).
  rewrite Hmean, Hsd. cbn [rbind]. f_equal. apply floor_cap_commute.
Qed.

(** The formula of the specification gives 0.9 where the code gives 0.3:
    a prediction of 100 after the demands 0 and 2 (mean 1, standard
    deviation 1). *)
Lemma prediction_confidence_differs_from_spec :
  ss_mean (map demand (seriesOf (fun k => Z2F (2 * Z.of_nat k)) 2)) = Ok 1%float
  /\ ss_standardDeviation
       (map demand (seriesOf (fun k => Z2F (2 * Z.of_nat k)) 2)) = Ok 1%float
  /\ (0 <? 1)%float = true
  /\ calculatePredictionConfidence 100
       (seriesOf (fun k => Z2F (2 * Z.of_nat k)) 2) = Ok 0.3%float
  /\ specPredictionConfidence 100 1 1 = 0.9%float
  /\ calculatePredictionConfidence 100
       (seriesOf (fun k => Z2F (2 * Z.of_nat k)) 2)
     <> Ok (specPredictionConfidence 100 1 1).
Proof.
  repeat split; try (vm_compute; reflexivity).
  intros H.
  apply (f_equal (fun r => match r with
                           | Ok x => (x <? 0.5)%float
                           | Err _ => false
                           end)) in H.
  vm_compute in H. discriminate H.
Qed.

(* ===================================================================== *)
(** * Evaluations *)
(* ===================================================================== *)

(** C2: on an all-zero history the statistical forecaster predicts 0 for
    every day, and the confidence of every point is [NaN], not the floor
    0.3: [1 - stdDev / mean] is [1 - 0 / 0].  Histories of 1, 7, 29 and
    180 days, horizon of 30 days. *)
Theorem all_zero_history_has_no_confidence :
  Forall (fun n =>
            exists points scope,
              statisticalBody (shop (fixedZone 0))
                (seriesOf (fun _ => 0%float) n) 30 = Ok (points, scope)
              /\ length points = 30%nat
              /\ allZeroWithoutConfidence points = true)
         [1; 7; 29; 180]%nat.
Proof.
  repeat constructor;
    (eexists; eexists; split; [vm_compute; reflexivity|];
     split; vm_compute; reflexivity).
Qed.

(** C5: a product whose unit price is 0 has holding cost 0; with a
    forecast of 10 a day the optimal stock is infinite and the expected
    savings are [NaN], which is not [>= 0].  With a negative price the
    optimal stock is [NaN]. *)
Theorem zero_price_gives_no_savings_figure :
  fst (optimizeStockLevels (TF := counting) (shop (fixedZone 0)) "sample")
  = Ok {| o_productId := "sample"; o_currentStock := 100;
          optimalStock := infinity; reorderPoint := 70%float;
          expectedSavings := nan; riskLevel := LOW |}
  /\ (0 <=? nan)%float = false
  /\ optimizeFromForecast "sample"
       {| product_id := "sample"; categoryId := "tools"; currentStock := 100;
          unitPrice := Some (-4)%float |} (flatForecast 10)
     = Ok {| o_productId := "sample"; o_currentStock := 100;
             optimalStock := nan; reorderPoint := 70%float;
             expectedSavings := nan; riskLevel := LOW |}.
Proof. repeat split; vm_compute; reflexivity. Qed.

(** C7: with a forecast of no demand at all the stockout risk is at its
    floor (risk level LOW), and for a product whose unit price is 0 the
    order quantity is the square root of 0 / 0: optimal stock and expected
    savings are [NaN]. *)
Theorem no_demand_and_zero_price_gives_nan :
  (exists forecast,
      fst (generateDemandForecast (TF := counting) idleShop "sample" 30)
      = Ok forecast
      /\ length (predictions forecast) = 30%nat
      /\ forallb (fun p => (predictedDemand p =? 0)%float)
                 (predictions forecast) = true)
  /\ fst (optimizeStockLevels (TF := counting) idleShop "sample")
     = Ok {| o_productId := "sample"; o_currentStock := 100;
             optimalStock := nan; reorderPoint := 0%float;
             expectedSavings := nan; riskLevel := LOW |}.
Proof.
  split.
  - eexists. split; [vm_compute; reflexivity|].
    split; vm_compute; reflexivity.
  - vm_compute; reflexivity.
Qed.

(** C8: in Europe/Berlin at 01:30 on 1 July 2024 the 180-day series has
    180 entries, and its entries 87 and 88 both carry the date
    2024-03-31 (day 19813): the days are stepped in local time and printed
    in UTC, and the clock change of 31 March lies between the two. *)
Theorem series_repeats_a_date_across_clock_change :
  length (getHistoricalDemandData (shop berlin2024) "widget" 180) = 180%nat
  /\ map date (slice 86 90 (getHistoricalDemandData (shop berlin2024)
                              "widget" 180))
     = [19812; 19813; 19813; 19814].
Proof. split; vm_compute; reflexivity. Qed.

(** C4, the claim fails: for the identifier ["ghost"], which no product
    carries, the forecast returns what the cache holds and anomaly
    detection returns an empty list. *)
Lemma unknown_product_is_not_always_reported :
  products staleShop !! "ghost"%string = None
  /\ fst (generateDemandForecast (TF := counting) staleShop "ghost" 30)
     = Ok staleForecast
  /\ detectAnomalies staleShop "ghost"
     = Ok {| a_productId := "ghost"; anomalies := [] |}.
Proof. repeat split; vm_compute; reflexivity. Qed.

Lemma unknown_product_is_reported_witness :
  products staleShop !! "ghost"%string = None
  /\ optimizeStockLevels (TF := counting) staleShop "ghost"
     = (Err ProductNotFound, staleShop)
  /\ generateDemandForecast (TF := counting) staleShop "ghost" 7
     = (Err ProductNotFound, staleShop)
  /\ generateDemandForecast (TF := counting) staleShop "ghost" 30
     = (Ok staleForecast, staleShop).
Proof.
  assert (H : products staleShop !! "ghost"%string = None)
    by (vm_compute; reflexivity).
  destruct (unknown_product_is_reported (TF := counting) staleShop "ghost" H)
    as [Hopt [Hmiss Hhit]].
  split; [exact H|]. split; [exact Hopt|]. split.
  - apply Hmiss. vm_compute; reflexivity.
  - apply Hhit. vm_compute; reflexivity.
Defined.

(** C10, the claim fails: the product ["novelty"] resolves, nothing is
    cached for it, and its forecast fails because its category has no
    model. *)
Lemma resolved_product_without_model :
  products (shop (fixedZone 0)) !! "novelty"%string
  = Some {| product_id := "novelty"; categoryId := "unlisted";
            currentStock := 5; unitPrice := None |}
  /\ cacheStore (shop (fixedZone 0)) !! ("novelty"%string, 30) = None
  /\ fst (generateDemandForecast (TF := counting) (shop (fixedZone 0))
            "novelty" 30)
     = Err ModelNotFound.
Proof. repeat split; vm_compute; reflexivity. Qed.

Lemma forecast_of_resolved_product_witness :
  products (shop (fixedZone 0)) !! "widget"%string
  = Some {| product_id := "widget"; categoryId := "tools";
            currentStock := 100; unitPrice := Some 12.5%float |}
  /\ cacheStore (shop (fixedZone 0)) !! ("widget"%string, 30) = None
  /\ length (getHistoricalDemandData (shop (fixedZone 0)) "widget" 180)
     = 180%nat.
Proof.
  assert (H1 : products (shop (fixedZone 0)) !! "widget"%string
               = Some {| product_id := "widget"; categoryId := "tools";
                         currentStock := 100; unitPrice := Some 12.5%float |})
    by (vm_compute; reflexivity).
  assert (H2 : cacheStore (shop (fixedZone 0)) !! ("widget"%string, 30) = None)
    by (vm_compute; reflexivity).
  split; [exact H1|]. split; [exact H2|].
  exact (proj1 (forecast_of_resolved_product (TF := counting)
                  (shop (fixedZone 0)) "widget" 30 _ H1 H2)).
Defined.


(* ===================================================================== *)
(** * Ranges of the confidence and of the stockout risk *)
(* ===================================================================== *)

Lemma SFltb_irrefl (x : spec_float) : SFltb x x = false.
Proof.
  unfold SFltb. destruct x as [s|s| |s m e]; cbn [SFcompare]; try reflexivity.
  - now destruct s.
  - rewrite Z.compare_refl.
    pose proof (Pos.compare_refl m) as Hm. unfold Pos.compare in Hm.
    rewrite Hm. now destruct s.
Qed.

Lemma SFltb_asym (x y : spec_float) : SFltb x y = true -> SFltb y x = false.
Proof.
  unfold SFltb.
  destruct x as [sx|sx| |sx mx ex]; destruct y as [sy|sy| |sy my ey];
    cbn [SFcompare]; try discriminate; try reflexivity;
    try (destruct sx; destruct sy; (discriminate || reflexivity)).
  rewrite (Z.compare_antisym ex ey).
  pose proof (Pos.compare_antisym mx my) as Hm. unfold Pos.compare in Hm.
  rewrite Hm.
  destruct sx; destruct sy; try (discriminate || reflexivity);
    destruct (ex ?= ey); cbn [CompOpp]; try (discriminate || reflexivity);
    destruct (Pos.compare_cont Eq mx my); cbn [CompOpp];
    (discriminate || reflexivity).
Qed.

Lemma ltb_irrefl (x : float) : (x <? x)%float = false.
Proof. rewrite ltb_spec. apply SFltb_irrefl. Qed.

Lemma ltb_asym (x y : float) : (x <? y)%float = true -> (y <? x)%float = false.
Proof. rewrite !ltb_spec. apply SFltb_asym. Qed.

Lemma ltb_nan_l (x : float) : (nan <? x)%float = false.
Proof. rewrite ltb_spec. reflexivity. Qed.

Lemma ltb_nan_r (x : float) : (x <? nan)%float = false.
Proof.
  rewrite ltb_spec. change (Prim2SF nan) with S754_nan.
  unfold SFltb. now destruct (Prim2SF x).
Qed.

(** [Math.max] returns [NaN] or one of its arguments. *)
Lemma Math_max_cases (a b : float) :
  Math_max a b = nan \/ Math_max a b = a \/ Math_max a b = b.
Proof.
  unfold Math_max.
  destruct (PrimFloat.is_nan a || PrimFloat.is_nan b); [now left|].
  destruct (a <? b)%float; [now right; right|].
  destruct (b <? a)%float; [now right; left|].
  destruct (isNegZero a); [now right; right|now right; left].
Qed.

Lemma Math_min_cases (a b : float) :
  Math_min a b = nan \/ Math_min a b = a \/ Math_min a b = b.
Proof.
  unfold Math_min.
  destruct (PrimFloat.is_nan a || PrimFloat.is_nan b); [now left|].
  destruct (a <? b)%float; [now right; left|].
  destruct (b <? a)%float; [now right; right|].
  destruct (isNegZero a); [now right; left|now right; right].
Qed.

(** [Math.max(lo, v)] is never below [lo]. *)
Lemma Math_max_not_below (lo v : float) : (Math_max lo v <? lo)%float = false.
Proof.
  unfold Math_max.
  destruct (PrimFloat.is_nan lo || PrimFloat.is_nan v); [apply ltb_nan_l|].
  destruct (lo <? v)%float eqn:Hlv; [now apply ltb_asym|].
  destruct (v <? lo)%float eqn:Hvl; [apply ltb_irrefl|].
  destruct (isNegZero lo); [exact Hvl|apply ltb_irrefl].
Qed.

(** [Math.min(hi, v)] is never above [hi]. *)
Lemma Math_min_not_above (hi v : float) : (hi <? Math_min hi v)%float = false.
Proof.
  unfold Math_min.
  destruct (PrimFloat.is_nan hi || PrimFloat.is_nan v); [apply ltb_nan_r|].
  destruct (hi <? v)%float eqn:Hhv; [apply ltb_irrefl|].
  destruct (v <? hi)%float eqn:Hvh; [exact Hhv|].
  destruct (isNegZero hi); [apply ltb_irrefl|exact Hhv].
Qed.

(** A value floored at [lo] after being capped at [hi] lies between the
    two, for [lo] not above [hi]. *)
Lemma clamp_range (lo hi v : float) :
  (hi <? lo)%float = false ->
  (Math_max lo (Math_min hi v) <? lo)%float = false
  /\ (hi <? Math_max lo (Math_min hi v))%float = false.
Proof.
  intros Hlohi. split; [apply Math_max_not_below|].
  destruct (Math_max_cases lo (Math_min hi v)) as [->|[->| ->]].
  - apply ltb_nan_r.
  - exact Hlohi.
  - apply Math_min_not_above.
Qed.

Lemma calculatePredictionConfidence_bounds (prediction : float)
    (historicalData : list DemandObservation) (c : float) :
  calculatePredictionConfidence prediction historicalData = Ok c ->
  (c <? 0.3)%float = false /\ (0.95 <? c)%float = false.
Proof.
  unfold calculatePredictionConfidence.
  destruct (ss_mean _) as [mean|e]; [|discriminate].
  destruct (ss_standardDeviation _) as [stdDev|e]; [|discriminate].
  cbn [rbind]. intros [= <-]. apply clamp_range. reflexivity.
Qed.

(** X1: the confidence that [calculatePredictionConfidence] returns is
    never below 0.3 and never above 0.95, whatever the prediction and the
    history. *)
Theorem prediction_confidence_range (prediction : float)
    (historicalData : list DemandObservation) (c : float) :
  calculatePredictionConfidence prediction historicalData = Ok c ->
  (c <? 0.3)%float = false /\ (0.95 <? c)%float = false.
Proof. apply calculatePredictionConfidence_bounds. Qed.

(** X2: the stockout risk that [calculateStockoutRisk] returns is never
    below 0 and never above 1. *)
Theorem stockout_risk_range (currentStock avgDemand variability : float) :
  (calculateStockoutRisk currentStock avgDemand variability <? 0)%float = false
  /\ (1 <? calculateStockoutRisk currentStock avgDemand variability)%float
     = false.
Proof.
  unfold calculateStockoutRisk.
  destruct (avgDemand =? 0)%float; [split; reflexivity|].
  apply clamp_range. reflexivity.
Qed.

(* ===================================================================== *)
(** * The cache and the frame of a forecast request *)
(* ===================================================================== *)

Section Caching.
Context {LayersModel : Type} {TF : TensorFlow LayersModel}.

Lemma generateDemandForecast_outcome (w : World LayersModel)
    (productId : string) (days : Z) :
  ForecastOutcome w productId days
    (fst (generateDemandForecast w productId days))
    (snd (generateDemandForecast w productId days)).
Proof.
  destruct (cacheStore w !! (productId, days)) as [cached|] eqn:Hcache.
  { unfold generateDemandForecast. rewrite Hcache. now apply outcome_hit. }
  destruct (products w !! productId) as [product|] eqn:Hproduct.
  2:{ unfold generateDemandForecast. rewrite Hcache, Hproduct.
      now apply outcome_unknown. }
  rewrite (generateDemandForecast_miss _ _ _ _ Hcache Hproduct).
  destruct (models w !! categoryId product) as [model|] eqn:Hmodel.
  - destruct (generateNeuralNetworkForecast_trains w product
                (getHistoricalDemandData w productId 180) days model Hmodel)
      as [forecast [Hrun [Htype Hlen]]].
    { rewrite history_has_170_windows. lia. }
    rewrite Hrun. cbn [fst snd].
    now apply (outcome_trained w productId days product model forecast).
  - unfold generateNeuralNetworkForecast. rewrite Hmodel. cbn [fst snd].
    now apply (outcome_no_model w productId days product).
Qed.

Lemma generateDemandForecast_frame (w w' : World LayersModel)
    (productId : string) (days : Z) (r : result ForecastResult) :
  generateDemandForecast w productId days = (r, w') ->
  products w' = products w
  /\ stockMovements w' = stockMovements w
  /\ now w' = now w /\ zone w' = zone w
  /\ (forall key, key <> (productId, days) ->
        cacheStore w' !! key = cacheStore w !! key)
  /\ (forall product category,
        products w !! productId = Some product ->
        category <> categoryId product ->
        models w' !! category = models w !! category)
  /\ (forall e, r = Err e -> w' = w).
Proof.
  intros Hrun.
  pose proof (generateDemandForecast_outcome w productId days) as Hout.
  rewrite Hrun in Hout. cbn [fst snd] in Hout.
  inversion Hout; subst; repeat split; try reflexivity; try discriminate.
  - intros key Hkey. cbn [cacheStore setCache].
    now rewrite lookup_insert_ne.
  - intros product' category Hproduct' Hcat.
    cbn [models setCache setModels].
    assert (product' = product) by congruence. subst product'.
    now rewrite lookup_insert_ne.
Qed.

(** X4: a forecast request leaves the tables, the clock and the zone as
    they are; it changes the cache at most under its own key and the model
    map at most at the category of the product; and a request that fails
    changes nothing. *)
Theorem forecast_frame (w w' : World LayersModel) (productId : string)
    (days : Z) (r : result ForecastResult) :
  generateDemandForecast w productId days = (r, w') ->
  products w' = products w
  /\ stockMovements w' = stockMovements w
  /\ now w' = now w /\ zone w' = zone w
  /\ (forall key, key <> (productId, days) ->
        cacheStore w' !! key = cacheStore w !! key)
  /\ (forall product category,
        products w !! productId = Some product ->
        category <> categoryId product ->
        models w' !! category = models w !! category)
  /\ (forall e, r = Err e -> w' = w).
Proof. apply generateDemandForecast_frame. Qed.

(** X6: for a product that resolves and has nothing cached for 30 days,
    stock optimisation returns a result when the category of the product has a
    model, and fails as the forecast does, with [ModelNotFound], when it
    has none. *)
Theorem optimization_follows_forecast (w : World LayersModel)
    (productId : string) (product : Product) :
  products w !! productId = Some product ->
  cacheStore w !! (productId, 30) = None ->
  match models w !! categoryId product with
  | Some model =>
      exists optimization w',
        optimizeStockLevels w productId = (Ok optimization, w')
        /\ o_productId optimization = productId
        /\ o_currentStock optimization = currentStock product
  | None => optimizeStockLevels w productId = (Err ModelNotFound, w)
  end.
Proof.
  intros Hproduct Hcache.
  unfold optimizeStockLevels. rewrite Hproduct.
  rewrite (generateDemandForecast_miss _ _ _ _ Hcache Hproduct).
  destruct (models w !! categoryId product) as [model|] eqn:Hmodel.
  - destruct (generateNeuralNetworkForecast_trains w product
                (getHistoricalDemandData w productId 180) 30 model Hmodel)
      as [forecast [Hrun [_ Hlen]]].
    { rewrite history_has_170_windows. lia. }
    rewrite Hrun.
    unfold optimizeFromForecast, calculateDemandVariability.
    destruct (predictions forecast) as [|p ps] eqn:Hp;
      [cbn in Hlen; discriminate|].
    change (map predictedDemand (p :: ps))
      with (predictedDemand p :: map predictedDemand ps).
    destruct (ss_standardDeviation_cons (predictedDemand p)
                (map predictedDemand ps)) as [sd ->].
    cbn [rbind]. eexists; eexists. split; [reflexivity|]. split; reflexivity.
  - unfold generateNeuralNetworkForecast. now rewrite Hmodel.
Qed.

End Caching.

(* ===================================================================== *)
(** * Computed forecasts, training windows and the feature window *)
(* ===================================================================== *)

Section Points.
Context {LayersModel : Type} {TF : TensorFlow LayersModel}.

Lemma neuralPredictions_wellFormed (w : World LayersModel)
    (model : LayersModel) (historicalData : list DemandObservation)
    (steps : list Z) :
  forall lastFeatures points,
    neuralPredictions w model historicalData steps lastFeatures = Ok points ->
    Forall wellFormedPoint points
    /\ map p_date points
       = map (fun i => isoDate (addLocalDays (zone w) (now w) (i + 1))) steps.
Proof.
  induction steps as [|i steps IH]; intros lastFeatures points.
  - intros [= <-]. split; [constructor|reflexivity].
  - cbn [neuralPredictions].
    destruct (calculatePredictionConfidence _ historicalData) as [c|e] eqn:Hc;
      [|discriminate].
    cbn [rbind].
    destruct (neuralPredictions w model historicalData steps _) as [ps|e]
      eqn:Hps; [|discriminate].
    cbn [rbind]. intros [= <-].
    destruct (IH _ _ Hps) as [Hwf Hdates].
    destruct (calculatePredictionConfidence_bounds _ _ _ Hc) as [Hlo Hhi].
    split.
    + constructor; [|exact Hwf].
      repeat split; cbn [predictedDemand lowerBound confidence];
        try apply Math_max_not_below; assumption.
    + cbn [map p_date]. now rewrite Hdates.
Qed.


End Points.

(* ---- training set and feature window ---- *)

(** X8: the training set has as many labels as windows, one per day from the
    eleventh on; every feature vector has the 10 entries the model
    expects, and the label of window [k] is the demand of day [k + 10]. *)
Theorem training_set_shape (historicalData : list DemandObservation) :
  let inputs := fst (prepareTrainingData historicalData) in
  let outputs := snd (prepareTrainingData historicalData) in
  length inputs = (length historicalData - 10)%nat
  /\ length outputs = length inputs
  /\ Forall (fun features => length features = 10%nat) inputs
  /\ (forall k, (k < length inputs)%nat ->
        nth_error outputs k
        = option_map demand (nth_error historicalData (k + 10))).
Proof.
  unfold prepareTrainingData. cbn [fst snd].
  rewrite !List.length_map, List.length_seq.
  split; [reflexivity|]. split; [reflexivity|]. split.
  - apply List.Forall_forall. intros features Hin.
    apply in_map_iff in Hin. destruct Hin as [i [<- _]]. reflexivity.
  - intros k Hk.
    rewrite nth_error_map, nth_error_seq.
    destruct (Nat.ltb_spec k (length historicalData - 10)) as [_|]; [|lia].
    cbn [option_map]. replace (10 + k)%nat with (k + 10)%nat by lia.
    destruct (nth_error historicalData (k + 10)) as [o|] eqn:Ho.
    + cbn [option_map]. f_equal. f_equal. now apply nth_error_nth.
    + apply nth_error_None in Ho. lia.
Qed.

(** X9: the first seven features of the window of day [i] are the demands of
    the seven days before it, oldest first. *)
Theorem window_lags (historicalData : list DemandObservation) (i : nat) :
  (7 <= i <= length historicalData)%nat ->
  firstn 7 (featuresAt historicalData i)
  = map demand (slice (i - 7) i historicalData).
Proof.
  intros Hi. unfold featuresAt, slice.
  rewrite firstn_app. cbn [length map Nat.sub firstn app].
  replace (i - (i - 7))%nat with 7%nat by lia.
  assert (Hlen : (7 <= length (skipn (i - 7) historicalData))%nat)
    by (rewrite List.length_skipn; lia).
  assert (Hnth : forall j, (j < 7)%nat ->
            nth (i - 7 + j) historicalData emptyObservation
            = nth j (skipn (i - 7) historicalData) emptyObservation).
  { intros j _. now rewrite nth_skipn. }
  destruct (skipn (i - 7) historicalData) as [|a0 [|a1 [|a2 [|a3 [|a4 [|a5 [|a6 l]]]]]]] eqn:E;
    cbn [length] in Hlen; try lia.
  cbn [firstn map].
  replace (i - 7)%nat with (i - 7 + 0)%nat at 1 by lia.
  replace (i - 6)%nat with (i - 7 + 1)%nat by lia.
  replace (i - 5)%nat with (i - 7 + 2)%nat by lia.
  replace (i - 4)%nat with (i - 7 + 3)%nat by lia.
  replace (i - 3)%nat with (i - 7 + 4)%nat by lia.
  replace (i - 2)%nat with (i - 7 + 5)%nat by lia.
  replace (i - 1)%nat with (i - 7 + 6)%nat by lia.
  rewrite !Hnth by lia. reflexivity.
Qed.

Section Features.
Context {LayersModel : Type}.

(** X10: rolling the feature window: the six newest lags move down one place,
    the new demand becomes the newest lag, the three calendar features are
    those of the day [dayOffset] days ahead, and the width stays 10. *)
Theorem updateFeatures_slides (w : World LayersModel)
    (features : list float) (newDemand : float) (dayOffset : Z) :
  length features = 10%nat ->
  let futureDate := addLocalDays (zone w) (now w) dayOffset in
  updateFeatures w features newDemand dayOffset
  = slice 1 7 features
    ++ [ newDemand;
         Z2F (getDay (zone w) futureDate);
         Z2F (getDate (zone w) futureDate);
         Z2F (getMonth (zone w) futureDate) ].
Proof.
  intros Hlen.
  destruct features as [|f0 [|f1 [|f2 [|f3 [|f4 [|f5 [|f6 [|f7 [|f8 [|f9 [|f10 l]]]]]]]]]]];
    try discriminate.
  reflexivity.
Qed.

End Features.

(* ===================================================================== *)
(** * What anomaly detection flags *)
(* ===================================================================== *)

Lemma mapM_flagged {A B C : Type} (f : A -> result (option B))
    (key : B -> C) (g : A -> C) (l : list A) :
  (forall a, In a l ->
     f a = Ok None \/ exists b, f a = Ok (Some b) /\ key b = g a) ->
  exists flagged,
    mapM f l = Ok flagged
    /\ sublist (map key (omap (fun o => o) flagged)) (map g l).
Proof.
  induction l as [|a l IH]; intros Hf.
  - exists []. split; [reflexivity|constructor].
  - destruct IH as [flagged [Hrun Hsub]]; [intros x Hx; apply Hf; now right|].
    destruct (Hf a (or_introl eq_refl)) as [Ha|[b [Ha Hb]]].
    + exists (None :: flagged). cbn [mapM]. rewrite Ha. cbn [rbind].
      rewrite Hrun. split; [reflexivity|].
      cbn [omap map]. now apply sublist_cons.
    + exists (Some b :: flagged). cbn [mapM]. rewrite Ha. cbn [rbind].
      rewrite Hrun. split; [reflexivity|].
      change (map key (omap (fun o => o) (Some b :: flagged)))
        with (key b :: map key (omap (fun o => o) flagged)).
      cbn [map]. rewrite Hb. now apply sublist_skip.
Qed.

Lemma nth_map_in_range {A B : Type} (f : A -> B) (l : list A) (i : nat)
    (d : B) (d' : A) :
  (i < length l)%nat -> nth i (map f l) d = f (nth i l d').
Proof.
  revert i. induction l as [|a l IH]; intros i Hi; cbn [length] in Hi; [lia|].
  destruct i as [|i]; [reflexivity|]. cbn [map nth]. apply IH. lia.
Qed.

Lemma map_nth_seq_skipn {A B : Type} (h : A -> B) (d : A) (k : nat) :
  forall l : list A,
  map (fun i => h (nth i l d)) (seq k (length l - k)) = map h (skipn k l).
Proof.
  induction k as [|k IH]; intros l.
  - rewrite Nat.sub_0_r, skipn_O.
    induction l as [|a l IHl]; [reflexivity|].
    cbn [length seq map nth]. f_equal.
    rewrite <- seq_shift, List.map_map. exact IHl.
  - destruct l as [|a l]; [reflexivity|].
    change (skipn (S k) (a :: l)) with (skipn k l).
    change (length (a :: l) - S k)%nat with (length l - k)%nat.
    rewrite <- seq_shift, List.map_map. exact (IH l).
Qed.

Lemma anomalyAt_cases (historicalData : list DemandObservation)
    (stdDev : float) (i : nat) :
  (7 <= i < length historicalData)%nat ->
  anomalyAt historicalData (map demand historicalData) stdDev i = Ok None
  \/ exists a,
       anomalyAt historicalData (map demand historicalData) stdDev i
       = Ok (Some a)
       /\ flaggedDay a = observedDay (nth i historicalData emptyObservation).
Proof.
  intros Hi. unfold anomalyAt.
  destruct (slice_week_nonempty (map demand historicalData) i) as [y [ys ->]];
    [rewrite List.length_map; lia|].
  destruct (ss_mean_cons y ys) as [m ->]. cbn [rbind].
  match goal with
  | |- context [if ?c then Ok (Some ?a) else Ok None] => destruct c
  end; [|now left].
  right. eexists. split; [reflexivity|].
  unfold flaggedDay, observedDay. cbn [a_date actualDemand]. f_equal.
  apply nth_map_in_range. lia.
Qed.

Lemma detectInSeries_flags (productId : string)
    (historicalData : list DemandObservation) :
  exists detection,
    detectInSeries productId historicalData = Ok detection
    /\ a_productId detection = productId
    /\ sublist (map flaggedDay (anomalies detection))
               (map observedDay (skipn 7 historicalData)).
Proof.
  unfold detectInSeries. rewrite List.length_map.
  destruct (Nat.ltb_spec (length historicalData) 14) as [|Hlen].
  { eexists. split; [reflexivity|]. split; [reflexivity|].
    apply sublist_nil_l. }
  destruct historicalData as [|o rest] eqn:Hh; [cbn in Hlen; lia|].
  rewrite <- Hh in *.
  assert (Hmean : exists m, ss_mean (map demand historicalData) = Ok m)
    by (rewrite Hh; apply ss_mean_cons).
  assert (Hsd : exists sd,
             ss_standardDeviation (map demand historicalData) = Ok sd)
    by (rewrite Hh; apply ss_standardDeviation_cons).
  destruct Hmean as [m ->]. destruct Hsd as [sd ->]. cbn [rbind].
  destruct (mapM_flagged
              (anomalyAt historicalData (map demand historicalData) sd)
              flaggedDay
              (fun i => observedDay (nth i historicalData emptyObservation))
              (seq 7 (length historicalData - 7)))
    as [flagged [Hrun Hsub]].
  { intros i Hin. apply in_seq in Hin. apply anomalyAt_cases. lia. }
  rewrite Hrun. cbn [rbind]. eexists. split; [reflexivity|].
  split; [reflexivity|]. cbn [anomalies].
  now rewrite <- (map_nth_seq_skipn observedDay emptyObservation 7
                    historicalData).
Qed.

Section Detection.
Context {LayersModel : Type}.

(** X11: anomaly detection never raises, whether the product exists or
    not; the days it flags are days of the 90-day series from the eighth
    on, each with the demand observed on it, and they are reported in the
    order of the series. *)
Theorem flagged_days_follow_the_series (w : World LayersModel)
    (productId : string) :
  exists detection,
    detectAnomalies w productId = Ok detection
    /\ a_productId detection = productId
    /\ sublist (map flaggedDay (anomalies detection))
               (map observedDay
                  (skipn 7 (getHistoricalDemandData w productId 90))).
Proof. apply detectInSeries_flags. Qed.

End Detection.

(* ===================================================================== *)
(** * The series on a host with a constant offset *)
(* ===================================================================== *)

Lemma addLocalDays_fixed (offset t delta : Z) :
  addLocalDays (fixedZone offset) t delta = t + delta * msPerDay.
Proof.
  unfold addLocalDays, LocalTime, UTC, Day, TimeWithinDay, fixedZone.
  cbn [offsetAtUTC offsetAtLocal].
  pose proof (Z.div_mod (t + offset) msPerDay) as H.
  unfold msPerDay in *. lia.
Qed.

Lemma isoDate_shift (t delta : Z) :
  isoDate (t + delta * msPerDay) = isoDate t + delta.
Proof. unfold isoDate, Day. apply Z.div_add. unfold msPerDay. lia. Qed.

Lemma isoDate_bounds (t : Z) :
  isoDate t * msPerDay <= t < (isoDate t + 1) * msPerDay.
Proof.
  unfold isoDate, Day.
  pose proof (Z.div_mod t msPerDay) as H.
  pose proof (Z.mod_pos_bound t msPerDay) as Hb.
  unfold msPerDay in *. lia.
Qed.

Lemma volume_nonneg (keep : StockMovement -> bool)
    (movements : list StockMovement) : 0 <= volume keep movements.
Proof.
  induction movements as [|m ms IH]; cbn [volume fold_right]; [lia|].
  fold (volume keep ms). destruct (keep m); lia.
Qed.

Lemma volume_le (keep keep' : StockMovement -> bool)
    (movements : list StockMovement) :
  (forall m, keep m = true -> keep' m = true) ->
  volume keep movements <= volume keep' movements.
Proof.
  intros Himp. induction movements as [|m ms IH]; cbn [volume fold_right];
    [lia|].
  fold (volume keep ms) (volume keep' ms).
  pose proof (volume_nonneg keep' ms).
  destruct (keep m) eqn:Hk; [rewrite (Himp m Hk); lia|].
  destruct (keep' m); lia.
Qed.

Lemma volume_filter (keep sel : StockMovement -> bool)
    (movements : list StockMovement) :
  volume keep (List.filter sel movements)
  = volume (fun m => sel m && keep m) movements.
Proof.
  induction movements as [|m ms IH]; [reflexivity|].
  cbn [List.filter]. destruct (sel m) eqn:Hs; cbn [volume fold_right andb].
  - fold (volume keep (List.filter sel ms)). rewrite IH. rewrite Hs. reflexivity.
  - fold (volume keep (List.filter sel ms)). rewrite IH. rewrite Hs. reflexivity.
Qed.

Lemma volume_ext (keep keep' : StockMovement -> bool)
    (movements : list StockMovement) :
  (forall m, keep m = keep' m) -> volume keep movements = volume keep' movements.
Proof.
  intros Hext. induction movements as [|m ms IH]; [reflexivity|].
  cbn [volume fold_right]. fold (volume keep ms) (volume keep' ms).
  now rewrite Hext, IH.
Qed.

Lemma volume_insert (keep : StockMovement -> bool) (m : StockMovement)
    (l : list StockMovement) :
  volume keep (insertByCreatedAt m l) = volume keep (m :: l).
Proof.
  induction l as [|x l IH]; [reflexivity|].
  cbn [insertByCreatedAt]. destruct (createdAt m <? createdAt x); [reflexivity|].
  cbn [volume fold_right] in *. fold (volume keep l) in *.
  fold (volume keep (insertByCreatedAt m l)). rewrite IH.
  destruct (keep x); destruct (keep m); lia.
Qed.

Lemma volume_sort (keep : StockMovement -> bool) (l : list StockMovement) :
  volume keep (sortByCreatedAt l) = volume keep l.
Proof.
  induction l as [|m l IH]; [reflexivity|].
  unfold sortByCreatedAt. cbn [fold_right]. fold (sortByCreatedAt l).
  rewrite volume_insert. cbn [volume fold_right].
  fold (volume keep (sortByCreatedAt l)) (volume keep l). now rewrite IH.
Qed.

(** The map built from the movements holds, for each day, the exact
    volume of the movements of that day. *)
Lemma groupByDay_totals (movements : list StockMovement) :
  forall (dailyDemand : gmap Z float) (T : Z -> Z),
    (forall d, orZero (dailyDemand !! d) = Z2F (T d)) ->
    (forall d, 0 <= T d) ->
    (forall d, T d + volume (fun m => isoDate (createdAt m) =? d) movements
               < 2 ^ 53) ->
    forall d,
      orZero (fold_left addMovement movements dailyDemand !! d)
      = Z2F (T d + volume (fun m => isoDate (createdAt m) =? d) movements).
Proof.
  induction movements as [|m ms IH]; intros dailyDemand T Hinv Hpos Hbound d.
  - cbn [fold_left volume fold_right]. now rewrite Z.add_0_r.
  - cbn [fold_left].
    set (dm := isoDate (createdAt m)).
    assert (Hqm : T dm + Z.abs (quantity m) < 2 ^ 53).
    { pose proof (Hbound dm) as Hb. cbn [volume fold_right] in Hb.
      fold (volume (fun m => isoDate (createdAt m) =? dm) ms) in Hb.
      pose proof (volume_nonneg (fun m => isoDate (createdAt m) =? dm) ms).
      unfold dm in Hb at 2. rewrite Z.eqb_refl in Hb. lia. }
    pose proof (Hpos dm) as Hposdm.
    rewrite (IH (addMovement dailyDemand m)
               (fun x => if x =? dm then T x + Z.abs (quantity m) else T x)).
    + cbn [volume fold_right].
      fold (volume (fun m => isoDate (createdAt m) =? d) ms).
      fold dm. rewrite (Z.eqb_sym dm d).
      f_equal. destruct (d =? dm); lia.
    + intros x. unfold addMovement. fold dm.
      destruct (Z.eqb_spec x dm) as [->|Hne].
      * rewrite lookup_insert_eq, Hinv, Z2F_abs, Z2F_add by lia.
        apply orZero_Z2F. lia.
      * rewrite lookup_insert_ne by congruence. apply Hinv.
    + intros x. pose proof (Hpos x). destruct (x =? dm); lia.
    + intros x. pose proof (Hbound x) as Hb. cbn [volume fold_right] in Hb.
      fold (volume (fun m => isoDate (createdAt m) =? x) ms) in Hb.
      fold dm in Hb. rewrite (Z.eqb_sym dm x) in Hb.
      destruct (x =? dm); lia.
Qed.

Section Builder.
Context {LayersModel : Type}.

(** On a host whose offset from UTC is constant, the day of the entry
    built for loop counter [i], and its demand. *)
Lemma builder_entry (w : World LayersModel) (offset : Z)
    (productId : string) (days i : Z) :
  zone w = fixedZone offset ->
  0 <= i < days ->
  outboundVolume (stockMovements w) productId < 2 ^ 53 ->
  let startDate := addLocalDays (zone w) (now w) (- days) in
  let movements :=
    sortByCreatedAt
      (List.filter (outboundSince productId startDate) (stockMovements w)) in
  isoDate (addLocalDays (zone w) (now w) (- i)) = isoDate (now w) - i
  /\ orZero (groupByDay movements !! (isoDate (now w) - i))
     = Z2F (dailyOutbound (stockMovements w) productId (isoDate (now w) - i)).
Proof.
  intros Hzone Hi Hvol startDate movements.
  assert (Hdate : isoDate (addLocalDays (zone w) (now w) (- i))
                  = isoDate (now w) - i).
  { rewrite Hzone, addLocalDays_fixed, isoDate_shift. lia. }
  split; [exact Hdate|].
  set (day := isoDate (now w) - i).
  assert (Hstart : startDate <= day * msPerDay).
  { unfold startDate. rewrite Hzone, addLocalDays_fixed.
    pose proof (isoDate_bounds (now w)). unfold day, msPerDay in *. lia. }
  assert (Hday : volume (fun m => isoDate (createdAt m) =? day) movements
                 = dailyOutbound (stockMovements w) productId day).
  { unfold movements. rewrite volume_sort, volume_filter.
    unfold dailyOutbound. apply volume_ext. intros m.
    unfold outboundSince, isOutboundOf.
    destruct (Z.eqb_spec (isoDate (createdAt m)) day) as [Heq|_];
      [|now rewrite !andb_false_r].
    rewrite !andb_true_r.
    replace (startDate <=? createdAt m) with true; [now rewrite andb_true_r|].
    symmetry. apply Z.leb_le.
    pose proof (isoDate_bounds (createdAt m)). rewrite Heq in *. lia. }
  unfold groupByDay.
  rewrite (groupByDay_totals movements ∅ (fun _ => 0)).
  - now rewrite Z.add_0_l, Hday.
  - intros d. reflexivity.
  - intros d. lia.
  - intros d. rewrite Z.add_0_l.
    assert (volume (fun m => isoDate (createdAt m) =? d) movements
            <= outboundVolume (stockMovements w) productId); [|lia].
    unfold movements, outboundVolume.
    rewrite volume_sort, volume_filter. apply volume_le.
    intros m. unfold outboundSince, isOutboundOf.
    destruct (String.eqb _ _); destruct (MovementType_eqb _ _);
      cbn [andb]; try discriminate; reflexivity.
Qed.

(** X12: on a host whose offset from UTC is constant the series has one
    observation for each of the last [days] UTC days, oldest first and
    ending today, and the demand of each is the exact volume of the
    outbound movements of the product on that day. *)
Theorem series_of_fixed_offset_host (w : World LayersModel) (offset : Z)
    (productId : string) (days : Z) :
  zone w = fixedZone offset ->
  outboundVolume (stockMovements w) productId < 2 ^ 53 ->
  length (getHistoricalDemandData w productId days) = Z.to_nat days
  /\ forall k o,
       nth_error (getHistoricalDemandData w productId days) k = Some o ->
       date o = isoDate (now w) - (days - 1 - Z.of_nat k)
       /\ demand o
          = Z2F (dailyOutbound (stockMovements w) productId (date o)).
Proof.
  intros Hzone Hvol. split; [apply getHistoricalDemandData_length|].
  intros k o Hk. unfold getHistoricalDemandData in Hk.
  rewrite nth_error_map in Hk.
  destruct (nth_error (countdown days) k) as [i|] eqn:Hi; [|discriminate].
  cbn [option_map] in Hk. injection Hk as <-. cbn [date demand].
  assert (Hrange : 0 <= i < days /\ i = days - 1 - Z.of_nat k).
  { unfold countdown in Hi. rewrite nth_error_map in Hi.
    destruct (nth_error (rev (seq 0 (Z.to_nat days))) k) as [j|] eqn:Hj;
      [|discriminate].
    injection Hi as <-.
    rewrite nth_error_rev, List.length_seq in Hj.
    destruct (Nat.ltb_spec k (Z.to_nat days)) as [Hklt|]; [|discriminate].
    rewrite nth_error_seq in Hj.
    destruct (Nat.ltb_spec (Z.to_nat days - S k) (Z.to_nat days)) as [_|];
      [|lia].
    injection Hj as <-. lia. }
  destruct Hrange as [Hrange Heq].
  destruct (builder_entry w offset productId days i Hzone Hrange Hvol)
    as [Hdate Hdemand].
  rewrite Hdate. split; [lia|]. exact Hdemand.
Qed.

End Builder.

(* ===================================================================== *)
(** * Accuracy of the fitted model *)
(* ===================================================================== *)

Section Accuracy.
Context {LayersModel : Type} {TF : TensorFlow LayersModel}.

Lemma mapeSums_no_label (outputs predictionData : list float) :
  Forall (fun o => (o =? 0)%float = true) outputs ->
  mapeSums outputs predictionData = (0%float, 0%float).
Proof.
  unfold mapeSums. intros Hzero. revert predictionData.
  induction Hzero as [|o outputs Ho _ IH]; intros predictionData;
    [reflexivity|].
  destruct predictionData as [|p ps]; [reflexivity|].
  cbn [combine fold_left]. rewrite Ho. cbn [negb]. apply IH.
Qed.

Lemma calculateModelAccuracy_no_label (model : LayersModel)
    (inputs : list (list float)) (outputs : list float) :
  inputs <> [] ->
  Forall (fun o => (o =? 0)%float = true) outputs ->
  calculateModelAccuracy model inputs outputs = 0%float.
Proof.
  intros Hne Hzero. unfold calculateModelAccuracy.
  destruct inputs as [|x xs]; [congruence|].
  now rewrite mapeSums_no_label.
Qed.

(** X13: the accuracy of a model is 0.5 when there is no training window,
    and it is never below 0, whatever the model predicts. *)
Theorem model_accuracy_floor (model : LayersModel)
    (inputs : list (list float)) (outputs : list float) :
  calculateModelAccuracy model [] outputs = 0.5%float
  /\ (calculateModelAccuracy model inputs outputs <? 0)%float = false.
Proof.
  split; [reflexivity|].
  unfold calculateModelAccuracy. destruct inputs as [|x xs]; [reflexivity|].
  destruct (mapeSums _ _) as [totalError validPredictions].
  apply Math_max_not_below.
Qed.

(** A product without outbound movements has a series of zeros, on any
    host. *)
Lemma idle_series (w : World LayersModel) (productId : string) (days : Z) :
  Forall (fun m => isOutboundOf productId m = false) (stockMovements w) ->
  Forall (fun o => demand o = 0%float)
         (getHistoricalDemandData w productId days).
Proof.
  intros Hidle. unfold getHistoricalDemandData.
  assert (Hnone : List.filter
                    (outboundSince productId
                       (addLocalDays (zone w) (now w) (- days)))
                    (stockMovements w) = []).
  { induction Hidle as [|m ms Hm _ IH]; [reflexivity|].
    cbn [List.filter]. unfold outboundSince at 1.
    unfold isOutboundOf in Hm. rewrite Hm. cbn [andb]. exact IH. }
  rewrite Hnone. apply List.Forall_forall. intros o Hin.
  apply in_map_iff in Hin. destruct Hin as [i [<- _]]. reflexivity.
Qed.

Lemma nth_of_all_zero (historicalData : list DemandObservation) (i : nat) :
  Forall (fun o => demand o = 0%float) historicalData ->
  (i < length historicalData)%nat ->
  demand (nth i historicalData emptyObservation) = 0%float.
Proof.
  intros Hzero Hi.
  rewrite List.Forall_forall in Hzero. apply Hzero, nth_In, Hi.
Qed.

(** X14: the forecast computed on a cache miss for a product that has no
    outbound movement in the store has accuracy 0, whatever the model is
    and whatever it predicts. *)
Theorem idle_product_has_zero_accuracy (w w' : World LayersModel)
    (productId : string) (days : Z) (forecast : ForecastResult) :
  cacheStore w !! (productId, days) = None ->
  Forall (fun m => isOutboundOf productId m = false) (stockMovements w) ->
  generateDemandForecast w productId days = (Ok forecast, w') ->
  accuracy forecast = 0%float.
Proof.
  intros Hcache Hidle Hrun.
  destruct (products w !! productId) as [product|] eqn:Hproduct.
  2:{ unfold generateDemandForecast in Hrun.
      rewrite Hcache, Hproduct in Hrun. discriminate. }
  rewrite (generateDemandForecast_miss _ _ _ _ Hcache Hproduct) in Hrun.
  unfold generateNeuralNetworkForecast in Hrun.
  destruct (models w !! categoryId product) as [model|]; [|discriminate].
  pose proof (history_has_170_windows w productId) as Hwin.
  pose proof (history_has_180 w productId) as Hlen.
  pose proof (idle_series w productId 180 Hidle) as Hzero.
  remember (getHistoricalDemandData w productId 180) as historicalData
    eqn:Hhist.
  clear Hhist.
  assert (Hout : snd (prepareTrainingData historicalData)
                 = map (fun i => demand (nth i historicalData emptyObservation))
                       (seq 10 (length historicalData - 10)))
    by reflexivity.
  destruct (prepareTrainingData historicalData) as [inputs outputs].
  cbn [snd] in Hout.
  cbn [fst] in Hwin. rewrite Hwin in Hrun.
  change (170 <? 10)%nat with false in Hrun. cbv iota in Hrun.
  match type of Hrun with
  | context [neuralPredictions ?w1 ?m ?h ?st ?lf] =>
      destruct (neuralPredictions w1 m h st lf) as [points|e];
        [|discriminate]
  end.
  cbn [rbind] in Hrun. injection Hrun as <- _. cbn [accuracy].
  apply calculateModelAccuracy_no_label.
  - intros Hnil. rewrite Hnil in Hwin. discriminate.
  - rewrite Hout. apply List.Forall_forall. intros o Hin.
    apply in_map_iff in Hin. destruct Hin as [i [<- Hi]].
    apply in_seq in Hi.
    rewrite nth_of_all_zero by (assumption || lia). reflexivity.
Qed.

End Accuracy.

(* ===================================================================== *)
(** * Lifetime of the service, scheduler and cache *)
(* ===================================================================== *)

Section LifetimeProperties.
Context {LayersModel : Type} {TF : TensorFlow LayersModel}
        {MF : ModelFactory LayersModel}.

Lemma initializeModels_fields (cs : list Category) :
  forall s : Service LayersModel,
    let s' := fold_left
                (fun s' category =>
                   withModels s'
                     (<[category_id category :=
                          loadOrCreateModel s' (category_id category)]>
                        (models (world s'))))
                cs s in
    isInitialized s' = isInitialized s
    /\ categories s' = categories s
    /\ modelFiles s' = modelFiles s
    /\ products (world s') = products (world s)
    /\ cacheStore (world s') = cacheStore (world s).
Proof.
  induction cs as [|c cs IH]; intros s; cbv zeta.
  - repeat split.
  - cbn [fold_left].
    destruct (IH (withModels s
                    (<[category_id c := loadOrCreateModel s (category_id c)]>
                       (models (world s))))) as (H1 & H2 & H3 & H4 & H5).
    rewrite H1, H2, H3, H4, H5. repeat split.
Qed.

Lemma initializeModels_lookup (cs : list Category) :
  forall (s : Service LayersModel) (categoryId : string),
    models (world (fold_left
                     (fun s' category =>
                        withModels s'
                          (<[category_id category :=
                               loadOrCreateModel s' (category_id category)]>
                             (models (world s'))))
                     cs s)) !! categoryId
    = if existsb (fun c => String.eqb (category_id c) categoryId) cs
      then Some (loadOrCreateModel s categoryId)
      else models (world s) !! categoryId.
Proof.
  induction cs as [|c cs IH]; intros s categoryId; [reflexivity|].
  cbn [fold_left existsb]. rewrite IH.
  unfold loadOrCreateModel at 1. cbn [modelFiles withModels].
  fold (loadOrCreateModel s categoryId).
  destruct (existsb _ cs); [now rewrite orb_true_r|].
  rewrite orb_false_r. cbn [models world withModels setModels].
  destruct (String.eqb_spec (category_id c) categoryId) as [->|Hne].
  - now rewrite lookup_insert_eq.
  - now rewrite lookup_insert_ne.
Qed.

Lemma initialize_lookup (s : Service LayersModel) (categoryId : string) :
  isInitialized s = false ->
  models (world (initialize s)) !! categoryId
  = if existsb (fun c => String.eqb (category_id c) categoryId)
               (categories s)
    then Some (loadOrCreateModel s categoryId)
    else models (world s) !! categoryId.
Proof.
  intros Hfresh. unfold initialize. rewrite Hfresh. cbn [world].
  unfold initializeModels. apply initializeModels_lookup.
Qed.

Lemma initialize_sets_flag (s : Service LayersModel) :
  isInitialized (initialize s) = true.
Proof.
  unfold initialize. destruct (isInitialized s) eqn:E; [exact E|reflexivity].
Qed.

(** X15: after the first [initialize] the service is marked initialised
    and every category of the table has a model: the one stored for it if
    there is a file, a new one otherwise; the other entries of the model
    map are as before. *)
Theorem initialize_gives_every_category_a_model (s : Service LayersModel)
    (categoryId : string) :
  isInitialized s = false ->
  isInitialized (initialize s) = true
  /\ models (world (initialize s)) !! categoryId
     = if existsb (fun c => String.eqb (category_id c) categoryId)
                  (categories s)
       then Some (match modelFiles s !! categoryId with
                  | Some model => model
                  | None => createDemandForecastModel
                  end)
       else models (world s) !! categoryId.
Proof.
  intros Hfresh. split; [apply initialize_sets_flag|].
  now apply initialize_lookup.
Qed.

(** [initialize] does its work once: a second call changes nothing. *)
Lemma initialize_idempotent (s : Service LayersModel) :
  initialize (initialize s) = initialize s.
Proof.
  unfold initialize at 1.
  destruct (isInitialized (initialize s)) eqn:H; [reflexivity|].
  unfold initialize in H. destruct (isInitialized s) eqn:Hs; [congruence|].
  discriminate.
Qed.

(** X17: once [cleanup] has run, [initialize] does not bring the models back:
    the flag is still set.  Every forecast for a product that resolves and
    has nothing cached then fails with [ModelNotFound]. *)
Theorem no_forecast_after_cleanup (s : Service LayersModel)
    (productId : string) (days : Z) (product : Product) :
  isInitialized s = true ->
  products (world s) !! productId = Some product ->
  cacheStore (world s) !! (productId, days) = None ->
  initialize (cleanup s) = cleanup s
  /\ models (world (initialize (cleanup s))) = ∅
  /\ fst (generateDemandForecast (world (initialize (cleanup s))) productId
            days)
     = Err ModelNotFound.
Proof.
  intros Hinit Hproduct Hcache.
  assert (Hsame : initialize (cleanup s) = cleanup s).
  { unfold initialize. cbn [isInitialized cleanup withModels].
    now rewrite Hinit. }
  rewrite Hsame. split; [reflexivity|]. split; [reflexivity|].
  cbn [world cleanup withModels].
  rewrite (generateDemandForecast_miss _ productId days product);
    [|exact Hcache|exact Hproduct].
  unfold generateNeuralNetworkForecast.
  cbn [models setModels]. now rewrite lookup_empty.
Qed.

(** X16: a first [initialize] is enough for every product of a listed
    category that has no stored model: its forecast, when nothing is
    cached for it, is computed with the newly created model and returns. *)
Theorem initialized_service_forecasts (s : Service LayersModel)
    (productId : string) (days : Z) (product : Product) :
  isInitialized s = false ->
  products (world s) !! productId = Some product ->
  cacheStore (world s) !! (productId, days) = None ->
  existsb (fun c => String.eqb (category_id c) (categoryId product))
          (categories s) = true ->
  modelFiles s !! categoryId product = None ->
  exists forecast w',
    generateDemandForecast (world (initialize s)) productId days
    = (Ok forecast, w')
    /\ modelType forecast = NEURAL_NETWORK
    /\ models w' !! categoryId product
       = Some (fit createDemandForecastModel
                 (fst (prepareTrainingData
                         (getHistoricalDemandData (world (initialize s))
                            productId 180)))
                 (snd (prepareTrainingData
                         (getHistoricalDemandData (world (initialize s))
                            productId 180)))).
Proof.
  intros Hfresh Hproduct Hcache Hlisted Hnofile.
  pose proof (initialize_lookup s (categoryId product) Hfresh) as Hmodel.
  rewrite Hlisted in Hmodel. unfold loadOrCreateModel in Hmodel.
  rewrite Hnofile in Hmodel.
  assert (Hsame : products (world (initialize s)) = products (world s)
                  /\ cacheStore (world (initialize s))
                     = cacheStore (world s)).
  { unfold initialize. rewrite Hfresh. cbn [world].
    destruct (initializeModels_fields (categories s) s)
      as (_ & _ & _ & Hp & Hc).
    split; [exact Hp|exact Hc]. }
  destruct Hsame as [Hp Hc].
  rewrite (generateDemandForecast_miss _ productId days product);
    [|rewrite Hc; exact Hcache|rewrite Hp; exact Hproduct].
  destruct (generateNeuralNetworkForecast_trains (world (initialize s))
              product
              (getHistoricalDemandData (world (initialize s)) productId 180)
              days _ Hmodel) as [forecast [Hrun [Htype _]]].
  { rewrite history_has_170_windows. lia. }
  rewrite Hrun. eexists; eexists; split; [reflexivity|].
  split; [exact Htype|].
  cbn [models setCache setModels]. apply lookup_insert_eq.
Qed.

(** X18: stopping and restarting the scheduler: the tasks registered by the
    first start are still registered and the second start registers them
    again, and the service is left without any model. *)
Theorem restart_doubles_tasks_and_loses_models
    (sch : @Scheduler LayersModel) :
  isRunning sch = false ->
  let sch' := start (stop (start sch)) in
  isRunning sch' = true
  /\ cronTasks sch' = cronTasks sch ++ cronJobs ++ cronJobs
  /\ models (world (aiService sch')) = ∅.
Proof.
  intros Hstopped. unfold start at 2. rewrite Hstopped.
  unfold stop. cbn [isRunning negb]. unfold start. cbn [isRunning].
  cbn [aiService cronTasks isRunning].
  split; [reflexivity|]. split; [now rewrite <- app_assoc|].
  unfold initialize at 1.
  assert (Hflag : isInitialized (cleanup (initialize (aiService sch))) = true).
  { cbn [isInitialized cleanup withModels]. unfold initialize.
    destruct (isInitialized (aiService sch)) eqn:E; [exact E|reflexivity]. }
  rewrite Hflag. reflexivity.
Qed.

End LifetimeProperties.

Section CacheProperties.
Context {Client : Type} {RC : RedisClient Client}.

(** X20: without Redis, a value that was set is read back until its time to
    live is over, and not from then on. *)
Theorem fallback_set_then_get (c : CacheService Client) (t t' : Z)
    (key value : string) (ttl : Z) :
  isConnected c = false ->
  cache_get (cache_set c t key value ttl) t' key
  = if t' <? t + ttl * 1000 then Some value else None.
Proof.
  intros Hoff. unfold cache_set, cache_get. rewrite Hoff.
  cbn [isConnected withFallback fallbackCache]. rewrite Hoff.
  now rewrite lookup_insert_eq.
Qed.

(** X21: without Redis, setting or deleting a key leaves the other keys as
    they are; a deleted key, and every key after a flush, reads as
    absent. *)
Theorem fallback_keys_are_independent (c : CacheService Client) (t t' : Z)
    (key other value : string) (ttl : Z) :
  isConnected c = false ->
  other <> key ->
  cache_get (cache_set c t key value ttl) t' other = cache_get c t' other
  /\ cache_get (cache_del c key) t' other = cache_get c t' other
  /\ cache_get (cache_del c key) t' key = None
  /\ cache_get (cache_flush c) t' other = None.
Proof.
  intros Hoff Hne.
  unfold cache_set, cache_del, cache_flush, cache_get. rewrite Hoff.
  cbn [isConnected withFallback fallbackCache]. rewrite Hoff.
  rewrite lookup_insert_ne, lookup_delete_ne, lookup_delete_eq, lookup_empty
    by congruence.
  repeat split.
Qed.

(** X22: without Redis, the periodic clean-up removes only what could no longer
    be read: at the time it runs and at any later time every key reads as
    it would have without it. *)
Theorem fallback_cleanup_is_invisible (c : CacheService Client) (t t' : Z)
    (key : string) :
  isConnected c = false ->
  t <= t' ->
  cache_get (cleanExpired c t) t' key = cache_get c t' key.
Proof.
  intros Hoff Hlater. unfold cleanExpired, cache_get.
  cbn [isConnected withFallback fallbackCache]. rewrite Hoff.
  destruct (fallbackCache c !! key) as [entry|] eqn:Hentry.
  - destruct (decide (expiry entry < t)) as [Hold|Hlive].
    + rewrite (map_lookup_filter_None_2 _ (fallbackCache c) key).
      * destruct (Z.ltb_spec t' (expiry entry)); [lia|reflexivity].
      * right. intros x Hx. cbn [snd]. intros Hkeep.
        rewrite Hentry in Hx. injection Hx as <-. contradiction.
    + rewrite (map_lookup_filter_Some_2 _ (fallbackCache c) key entry);
        [reflexivity|exact Hentry|exact Hlive].
  - rewrite (map_lookup_filter_None_2 _ (fallbackCache c) key);
      [reflexivity|now left].
Qed.

End CacheProperties.

(* ===================================================================== *)
(** * Forecasts over the cache service without Redis *)
(* ===================================================================== *)

Section CachedForecasts.
Context {LayersModel : Type} {TF : TensorFlow LayersModel}
        {Client : Type} {RC : RedisClient Client} {J : JSON}.

(** The neural forecaster does not move the clock. *)
Lemma generateNeuralNetworkForecast_now (w : World LayersModel)
    (product : Product) (historicalData : list DemandObservation)
    (days : Z) :
  now (snd (generateNeuralNetworkForecast w product historicalData days))
  = now w.
Proof.
  unfold generateNeuralNetworkForecast.
  destruct (models w !! categoryId product) as [model|]; [|reflexivity].
  destruct (prepareTrainingData historicalData) as [inputs outputs].
  destruct (length inputs <? 10)%nat; reflexivity.
Qed.

(** What is read under a key that was set, without Redis. *)
Lemma cache_get_after_set (c : CacheService Client) (t t' : Z)
    (key value : string) (ttl : Z) :
  isConnected c = false ->
  isConnected (cache_set c t key value ttl) = false
  /\ cache_get (cache_set c t key value ttl) t' key
     = if t' <? t + ttl * 1000 then Some value else None.
Proof.
  intros Hoff. unfold cache_set, cache_get. rewrite Hoff.
  cbn [isConnected withFallback fallbackCache]. rewrite Hoff.
  split; [reflexivity|]. now rewrite lookup_insert_eq.
Qed.

(** A request that finds nothing in the cache and returns has stored what
    it returns, at the time of the request. *)
Lemma cached_forecast_stored (c c' : CacheService Client)
    (w w' : World LayersModel) (productId : string) (days : Z)
    (forecast : ForecastResult) :
  cache_get c (now w) (cacheKey productId days) = None ->
  WithCacheService.generateDemandForecast c w productId days
  = (Ok forecast, w', c') ->
  c' = cache_set c (now w) (cacheKey productId days)
         (JSON_stringify forecast) 3600.
Proof.
  intros Hmiss. unfold WithCacheService.generateDemandForecast.
  rewrite Hmiss.
  destruct (products w !! productId) as [product|]; [|discriminate].
  rewrite history_has_180. change (180 <? 30)%nat with false. cbv iota.
  pose proof (generateNeuralNetworkForecast_now w product
                (getHistoricalDemandData w productId 180) days) as Hnow.
  destruct (generateNeuralNetworkForecast w product
              (getHistoricalDemandData w productId 180) days)
    as [[forecast'|e] w1]; [|discriminate].
  cbn [snd] in Hnow. rewrite Hnow. now intros [= <- <- <-].
Qed.

(** A request that finds nothing in the cache, for a product that resolves
    and whose category has a model, trains the model. *)
Lemma cached_forecast_computed (c : CacheService Client)
    (w : World LayersModel) (productId : string) (days : Z)
    (product : Product) (model : LayersModel) :
  cache_get c (now w) (cacheKey productId days) = None ->
  products w !! productId = Some product ->
  models w !! categoryId product = Some model ->
  exists forecast w' c',
    WithCacheService.generateDemandForecast c w productId days
    = (Ok forecast, w', c')
    /\ models w' !! categoryId product
       = Some (fit model
                 (fst (prepareTrainingData
                         (getHistoricalDemandData w productId 180)))
                 (snd (prepareTrainingData
                         (getHistoricalDemandData w productId 180)))).
Proof.
  intros Hmiss Hproduct Hmodel.
  unfold WithCacheService.generateDemandForecast.
  rewrite Hmiss, Hproduct, history_has_180.
  change (180 <? 30)%nat with false. cbv iota.
  destruct (generateNeuralNetworkForecast_trains w product
              (getHistoricalDemandData w productId 180) days model Hmodel)
    as [forecast [Hrun _]].
  { rewrite history_has_170_windows. lia. }
  rewrite Hrun. eexists; eexists; eexists. split; [reflexivity|].
  cbn [models setModels]. apply lookup_insert_eq.
Qed.

(** A request that finds a string that is not empty parses it and changes
    nothing. *)
Lemma cached_forecast_hit (c : CacheService Client) (w : World LayersModel)
    (productId : string) (days : Z) (cached : string) :
  cache_get c (now w) (cacheKey productId days) = Some cached ->
  cached <> EmptyString ->
  WithCacheService.generateDemandForecast c w productId days
  = (JSON_parse cached, w, c).
Proof.
  intros Hhit Hfull. unfold WithCacheService.generateDemandForecast.
  rewrite Hhit. destruct cached as [|a cached]; [congruence|reflexivity].
Qed.

Lemma cached_forecast_lifetime (c c' : CacheService Client)
    (w w' : World LayersModel) (productId : string) (days : Z)
    (forecast : ForecastResult) :
  isConnected c = false ->
  cache_get c (now w) (cacheKey productId days) = None ->
  WithCacheService.generateDemandForecast c w productId days
  = (Ok forecast, w', c') ->
  JSON_stringify forecast <> EmptyString ->
  forall w2 : World LayersModel,
    (now w2 < now w + 3600 * 1000 ->
     WithCacheService.generateDemandForecast c' w2 productId days
     = (JSON_parse (JSON_stringify forecast), w2, c'))
    /\ (now w + 3600 * 1000 <= now w2 ->
        cache_get c' (now w2) (cacheKey productId days) = None).
Proof.
  intros Hoff Hmiss Hrun Hfull w2.
  rewrite (cached_forecast_stored _ _ _ _ _ _ _ Hmiss Hrun).
  destruct (cache_get_after_set c (now w) (now w2) (cacheKey productId days)
              (JSON_stringify forecast) 3600 Hoff) as [_ Hget].
  split.
  - intros Hfresh. apply cached_forecast_hit; [|exact Hfull].
    rewrite Hget.
    destruct (Z.ltb_spec (now w2) (now w + 3600 * 1000)); [reflexivity|lia].
  - intros Hstale. rewrite Hget.
    destruct (Z.ltb_spec (now w2) (now w + 3600 * 1000)); [lia|reflexivity].
Qed.



End CachedForecasts.

(* ===================================================================== *)
(** * The properties above on the sample store *)
(* ===================================================================== *)

Lemma prediction_confidence_range_witness :
  calculatePredictionConfidence 12 (seriesOf (fun _ => 10%float) 14)
  = Ok 0.95%float
  /\ (0.95 <? 0.3)%float = false /\ (0.95 <? 0.95)%float = false.
Proof.
  assert (H : calculatePredictionConfidence 12
                (seriesOf (fun _ => 10%float) 14) = Ok 0.95%float)
    by (vm_compute; reflexivity).
  split; [exact H|].
  exact (prediction_confidence_range _ _ _ H).
Defined.

Lemma forecast_frame_witness :
  generateDemandForecast (TF := counting) (shop (fixedZone 0)) "widget" 7
  = (Ok (forecastOf widgetRun), snd widgetRun)
  /\ products (snd widgetRun) = products (shop (fixedZone 0))
  /\ stockMovements (snd widgetRun) = stockMovements (shop (fixedZone 0)).
Proof.
  assert (H : generateDemandForecast (TF := counting) (shop (fixedZone 0))
                "widget" 7 = (Ok (forecastOf widgetRun), snd widgetRun))
    by (vm_compute; reflexivity).
  split; [exact H|].
  destruct (forecast_frame (TF := counting) _ _ _ _ _ H)
    as [Hproducts [Hmovements _]].
  split; [exact Hproducts|exact Hmovements].
Defined.

Lemma optimization_follows_forecast_witness :
  products (shop (fixedZone 0)) !! "novelty"%string
  = Some {| product_id := "novelty"; categoryId := "unlisted";
            currentStock := 5; unitPrice := None |}
  /\ cacheStore (shop (fixedZone 0)) !! ("novelty"%string, 30) = None
  /\ optimizeStockLevels (TF := counting) (shop (fixedZone 0)) "novelty"
     = (Err ModelNotFound, shop (fixedZone 0)).
Proof.
  assert (H1 : products (shop (fixedZone 0)) !! "novelty"%string
               = Some {| product_id := "novelty"; categoryId := "unlisted";
                         currentStock := 5; unitPrice := None |})
    by (vm_compute; reflexivity).
  assert (H2 : cacheStore (shop (fixedZone 0)) !! ("novelty"%string, 30)
               = None)
    by (vm_compute; reflexivity).
  split; [exact H1|]. split; [exact H2|].
  exact (optimization_follows_forecast (TF := counting) _ _ _ H1 H2).
Defined.


Lemma window_lags_witness :
  (7 <= 9 <= length (seriesOf (fun k => Z2F (Z.of_nat k)) 14))%nat
  /\ firstn 7 (featuresAt (seriesOf (fun k => Z2F (Z.of_nat k)) 14) 9)
     = map demand (slice 2 9 (seriesOf (fun k => Z2F (Z.of_nat k)) 14)).
Proof.
  assert (H : (7 <= 9 <= length (seriesOf (fun k => Z2F (Z.of_nat k)) 14))%nat)
    by (vm_compute; lia).
  split; [exact H|].
  exact (window_lags (seriesOf (fun k => Z2F (Z.of_nat k)) 14) 9 H).
Defined.

Lemma updateFeatures_slides_witness :
  length [1; 2; 3; 4; 5; 6; 7; 0; 30; 5]%float = 10%nat
  /\ updateFeatures (shop (fixedZone 0)) [1; 2; 3; 4; 5; 6; 7; 0; 30; 5]%float
       8 1
     = [2; 3; 4; 5; 6; 7; 8; 1; 1; 6]%float.
Proof.
  assert (H : length [1; 2; 3; 4; 5; 6; 7; 0; 30; 5]%float = 10%nat)
    by reflexivity.
  split; [exact H|].
  rewrite (updateFeatures_slides (shop (fixedZone 0)) _ 8 1 H).
  vm_compute. reflexivity.
Defined.

Lemma series_of_fixed_offset_host_witness :
  zone (shop (fixedZone 0)) = fixedZone 0
  /\ outboundVolume (stockMovements (shop (fixedZone 0))) "widget" < 2 ^ 53
  /\ length (getHistoricalDemandData (shop (fixedZone 0)) "widget" 5) = 5%nat.
Proof.
  assert (H1 : zone (shop (fixedZone 0)) = fixedZone 0) by reflexivity.
  assert (H2 : outboundVolume (stockMovements (shop (fixedZone 0))) "widget"
               < 2 ^ 53)
    by (vm_compute; reflexivity).
  split; [exact H1|]. split; [exact H2|].
  exact (proj1 (series_of_fixed_offset_host (shop (fixedZone 0)) 0 "widget" 5
                  H1 H2)).
Defined.

Lemma idle_product_has_zero_accuracy_witness :
  cacheStore (shop (fixedZone 0)) !! ("sample"%string, 7) = None
  /\ Forall (fun m => isOutboundOf "sample" m = false)
            (stockMovements (shop (fixedZone 0)))
  /\ generateDemandForecast (TF := counting) (shop (fixedZone 0)) "sample" 7
     = (Ok (forecastOf sampleRun), snd sampleRun)
  /\ accuracy (forecastOf sampleRun) = 0%float.
Proof.
  assert (H1 : cacheStore (shop (fixedZone 0)) !! ("sample"%string, 7) = None)
    by (vm_compute; reflexivity).
  assert (H2 : Forall (fun m => isOutboundOf "sample" m = false)
                      (stockMovements (shop (fixedZone 0))))
    by (repeat constructor).
  assert (H3 : generateDemandForecast (TF := counting) (shop (fixedZone 0))
                 "sample" 7 = (Ok (forecastOf sampleRun), snd sampleRun))
    by (vm_compute; reflexivity).
  split; [exact H1|]. split; [exact H2|]. split; [exact H3|].
  exact (idle_product_has_zero_accuracy (TF := counting) _ _ _ _ _ H1 H2 H3).
Defined.

Lemma initialize_gives_every_category_a_model_witness :
  isInitialized sampleService = false
  /\ isInitialized (initialize (MF := countingFactory) sampleService) = true
  /\ models (world (initialize (MF := countingFactory) sampleService))
       !! "tools"%string
     = Some (0%float, 0%nat).
Proof.
  assert (H : isInitialized sampleService = false) by reflexivity.
  split; [exact H|].
  exact (initialize_gives_every_category_a_model (MF := countingFactory)
           sampleService "tools" H).
Defined.

Lemma initialized_service_forecasts_witness :
  isInitialized sampleService = false
  /\ products (world sampleService) !! "widget"%string
     = Some {| product_id := "widget"; categoryId := "tools";
               currentStock := 100; unitPrice := Some 12.5%float |}
  /\ cacheStore (world sampleService) !! ("widget"%string, 7) = None
  /\ modelFiles sampleService !! "tools"%string = None
  /\ exists forecast w',
       generateDemandForecast (TF := counting)
         (world (initialize (MF := countingFactory) sampleService))
         "widget" 7
       = (Ok forecast, w')
       /\ modelType forecast = NEURAL_NETWORK.
Proof.
  assert (H1 : isInitialized sampleService = false) by reflexivity.
  assert (H2 : products (world sampleService) !! "widget"%string
               = Some {| product_id := "widget"; categoryId := "tools";
                         currentStock := 100; unitPrice := Some 12.5%float |})
    by (vm_compute; reflexivity).
  assert (H3 : cacheStore (world sampleService) !! ("widget"%string, 7)
               = None)
    by (vm_compute; reflexivity).
  assert (H4 : existsb (fun c => String.eqb (category_id c) "tools")
                       (categories sampleService) = true)
    by reflexivity.
  assert (H5 : modelFiles sampleService !! "tools"%string = None)
    by (vm_compute; reflexivity).
  split; [exact H1|]. split; [exact H2|]. split; [exact H3|].
  split; [exact H5|].
  destruct (initialized_service_forecasts (TF := counting)
              (MF := countingFactory) sampleService "widget" 7 _
              H1 H2 H3 H4 H5)
    as [forecast [w' [Hrun [Htype _]]]].
  exists forecast, w'. split; [exact Hrun|exact Htype].
Defined.

Lemma no_forecast_after_cleanup_witness :
  isInitialized (initialize (MF := countingFactory) sampleService) = true
  /\ products (world (initialize (MF := countingFactory) sampleService))
       !! "widget"%string
     = Some {| product_id := "widget"; categoryId := "tools";
               currentStock := 100; unitPrice := Some 12.5%float |}
  /\ cacheStore (world (initialize (MF := countingFactory) sampleService))
       !! ("widget"%string, 7) = None
  /\ fst (generateDemandForecast (TF := counting)
            (world (initialize (MF := countingFactory)
                      (cleanup
                         (initialize (MF := countingFactory) sampleService))))
            "widget" 7)
     = Err ModelNotFound.
Proof.
  assert (H1 : isInitialized (initialize (MF := countingFactory)
                                sampleService) = true)
    by reflexivity.
  assert (H2 : products (world (initialize (MF := countingFactory)
                                  sampleService)) !! "widget"%string
               = Some {| product_id := "widget"; categoryId := "tools";
                         currentStock := 100; unitPrice := Some 12.5%float |})
    by (vm_compute; reflexivity).
  assert (H3 : cacheStore (world (initialize (MF := countingFactory)
                                    sampleService)) !! ("widget"%string, 7)
               = None)
    by (vm_compute; reflexivity).
  split; [exact H1|]. split; [exact H2|]. split; [exact H3|].
  exact (proj2 (proj2 (no_forecast_after_cleanup (TF := counting)
                         (MF := countingFactory) _ "widget" 7 _ H1 H2 H3))).
Defined.

Lemma restart_doubles_tasks_and_loses_models_witness :
  isRunning sampleScheduler = false
  /\ cronTasks (start (MF := countingFactory)
                  (stop (start (MF := countingFactory) sampleScheduler)))
     = cronJobs ++ cronJobs
  /\ models (world (aiService
                      (start (MF := countingFactory)
                         (stop (start (MF := countingFactory)
                                  sampleScheduler)))))
     = ∅.
Proof.
  assert (H : isRunning sampleScheduler = false) by reflexivity.
  split; [exact H|].
  destruct (restart_doubles_tasks_and_loses_models (MF := countingFactory)
              sampleScheduler H) as [_ [Htasks Hmodels]].
  split; [exact Htasks|exact Hmodels].
Defined.

Lemma fallback_set_then_get_witness :
  isConnected offlineCache = false
  /\ cache_get (RC := noRedis)
       (cache_set (RC := noRedis) offlineCache 1000 "k" "v" 3600)
       3600999 "k"
     = Some "v"%string
  /\ cache_get (RC := noRedis)
       (cache_set (RC := noRedis) offlineCache 1000 "k" "v" 3600)
       3601000 "k"
     = None.
Proof.
  assert (H : isConnected offlineCache = false) by reflexivity.
  split; [exact H|]. split.
  - exact (fallback_set_then_get (RC := noRedis) offlineCache 1000 3600999
             "k" "v" 3600 H).
  - exact (fallback_set_then_get (RC := noRedis) offlineCache 1000 3601000
             "k" "v" 3600 H).
Defined.

Lemma fallback_keys_are_independent_witness :
  isConnected offlineCache = false
  /\ "other"%string <> "k"%string
  /\ cache_get (RC := noRedis)
       (cache_del (RC := noRedis) offlineCache "k") 0 "k"
     = None.
Proof.
  assert (H1 : isConnected offlineCache = false) by reflexivity.
  assert (H2 : "other"%string <> "k"%string) by discriminate.
  split; [exact H1|]. split; [exact H2|].
  destruct (fallback_keys_are_independent (RC := noRedis) offlineCache 0 0
              "k" "other" "v" 3600 H1 H2) as [_ [_ [Hdel _]]].
  exact Hdel.
Defined.

Lemma fallback_cleanup_is_invisible_witness :
  isConnected (cache_set (RC := noRedis) offlineCache 1000 "k" "v" 1) = false
  /\ 2000 <= 2000
  /\ cache_get (RC := noRedis)
       (cleanExpired
          (cache_set (RC := noRedis) offlineCache 1000 "k" "v" 1) 2000)
       2000 "k"
     = cache_get (RC := noRedis)
         (cache_set (RC := noRedis) offlineCache 1000 "k" "v" 1) 2000 "k".
Proof.
  assert (H1 : isConnected
                 (cache_set (RC := noRedis) offlineCache 1000 "k" "v" 1)
               = false)
    by reflexivity.
  assert (H2 : 2000 <= 2000) by lia.
  split; [exact H1|]. split; [exact H2|].
  exact (fallback_cleanup_is_invisible (RC := noRedis) _ 2000 2000 "k" H1 H2).
Defined.


